(** * The MDS message processor of the SSM agent: command dispatch core

    A shallow embedding of [agent/message/processor/processor_core.go]
    (package [processor]) and the properties of its recovery scanner,
    its ingress dispatcher and its two executors.

    The processor talks to collaborators that live in other packages
    (the MDS service client, the worker pools, the state store on disk,
    the plugin runner, the reply builder, the logger).  Every call to a
    collaborator that has an effect is recorded, in program order, in
    the [trace] of the [World]; the state store is kept as a finite map
    from file paths to file contents next to it.  Debug and info
    logging is left out of the trace; error logging is kept. *)

From stdpp Require Import gmap strings list fin_maps.
From Stdlib Require Import ZArith.

Local Open Scope Z_scope.
Local Open Scope string_scope.
Local Open Scope list_scope.

(** ** Data model (package [contracts] and [message/contracts]) *)

(** [contracts.ResultStatus] is a string type; the four constants the
    processor names are constructors, every other value of the type
    (the zero value is the empty string) is a [ResultStatusOther]. *)
Inductive ResultStatus : Type :=
  | ResultStatusInProgress
  | ResultStatusSuccess
  | ResultStatusSuccessAndReboot
  | ResultStatusFailed
  | ResultStatusOther (s : string).

#[global] Instance ResultStatus_eq_dec : EqDecision ResultStatus.
Proof. solve_decision. Defined.

(** [messageContracts.DocumentType]: the two constants the processor
    switches on, and any other value of the type. *)
Inductive DocumentType : Type :=
  | SendCommand
  | CancelCommand
  | DocumentTypeOther (s : string).

#[global] Instance DocumentType_eq_dec : EqDecision DocumentType.
Proof. solve_decision. Defined.

(** [contracts.Configuration] and the free-form parts of a reply are
    carried around by the processor and never inspected. *)
Record Configuration : Type := mkConfiguration { Settings : string }.

Record PluginResult : Type := mkPluginResult {
  Status : ResultStatus;
  Output : string
}.

Record PluginState : Type := mkPluginState {
  PluginConfiguration : Configuration;   (* field [Configuration] *)
  HasExecuted : bool;
  Result : PluginResult
}.

Record DocumentInfo : Type := mkDocumentInfo {
  CommandID : string;
  MessageID : string;
  Destination : string;
  DocumentStatus : ResultStatus;
  RunCount : Z;
  AdditionalInfo : string;
  DocumentTraceOutput : string;
  RuntimeStatus : string
}.

Record CancelCommandInfo : Type := mkCancelCommandInfo {
  CancelMessageID : string;
  CancelCommandID : string;
  DebugInfo : string
}.

Record DocumentState : Type := mkDocumentState {
  DocumentInformation : DocumentInfo;
  DocType : DocumentType;                 (* field [DocumentType] *)
  PluginsInformation : gmap string PluginState;
  CancelInformation : CancelCommandInfo
}.

(** The reply envelope returned by [buildReply]. *)
Record SendReplyPayload : Type := mkSendReplyPayload {
  ReplyAdditionalInfo : string;
  ReplyDocumentStatus : ResultStatus;
  ReplyDocumentTraceOutput : string;
  ReplyRuntimeStatus : string
}.

(** [ssmmds.Message]: every field is a [*string], [None] is [nil]. *)
Record Message : Type := mkMessage {
  MessageId : option string;
  Topic : option string;
  Payload : option string;
  MsgDestination : option string        (* field [Destination] *)
}.

(** Zero values, as [var x T] gives them. *)
Definition zeroDocumentInfo : DocumentInfo :=
  mkDocumentInfo "" "" "" (ResultStatusOther "") 0 "" "" "".

Definition zeroDocumentState : DocumentState :=
  mkDocumentState zeroDocumentInfo (DocumentTypeOther "") ∅
                  (mkCancelCommandInfo "" "" "").

(** Field updates written [x.f = v] in the source. *)
Definition setDocumentInformation (i : DocumentInfo) (d : DocumentState) : DocumentState :=
  mkDocumentState i (DocType d) (PluginsInformation d) (CancelInformation d).

Definition setPluginsInformation (p : gmap string PluginState) (d : DocumentState) : DocumentState :=
  mkDocumentState (DocumentInformation d) (DocType d) p (CancelInformation d).

Definition setCancelInformation (c : CancelCommandInfo) (d : DocumentState) : DocumentState :=
  mkDocumentState (DocumentInformation d) (DocType d) (PluginsInformation d) c.

Definition setRunCount (n : Z) (i : DocumentInfo) : DocumentInfo :=
  mkDocumentInfo (CommandID i) (MessageID i) (Destination i) (DocumentStatus i) n
                 (AdditionalInfo i) (DocumentTraceOutput i) (RuntimeStatus i).

Definition setDocumentStatus (s : ResultStatus) (i : DocumentInfo) : DocumentInfo :=
  mkDocumentInfo (CommandID i) (MessageID i) (Destination i) s (RunCount i)
                 (AdditionalInfo i) (DocumentTraceOutput i) (RuntimeStatus i).

Definition setDebugInfo (s : string) (c : CancelCommandInfo) : CancelCommandInfo :=
  mkCancelCommandInfo (CancelMessageID c) (CancelCommandID c) s.

Definition setResultStatus (s : ResultStatus) (p : PluginState) : PluginState :=
  mkPluginState (PluginConfiguration p) (HasExecuted p)
                (mkPluginResult s (Output (Result p))).

(** The four document-level fields both executors copy from the reply
    envelope into a [DocumentInfo]. *)
Definition setReplyFields (r : SendReplyPayload) (i : DocumentInfo) : DocumentInfo :=
  mkDocumentInfo (CommandID i) (MessageID i) (Destination i)
                 (ReplyDocumentStatus r) (RunCount i)
                 (ReplyAdditionalInfo r) (ReplyDocumentTraceOutput r) (ReplyRuntimeStatus r).

(** [RunCount++] on a Go [int] (64 bits on the supported hosts): the
    sum wraps around in two's complement. *)
Definition wrapInt (z : Z) : Z := (z + 2 ^ 63) mod 2 ^ 64 - 2 ^ 63.

(** ** Collaborators and the world they act on *)

Inductive Pool : Type := sendCommandPool | cancelCommandPool.

(** The closures handed to [Pool.Submit]: which executor the job runs,
    and the document it has captured. *)
Inductive Job : Type :=
  | JobProcessSendCommandMessage (docState : DocumentState)
  | JobRunCmdsUsingCmdState (command : DocumentState)
  | JobProcessCancelCommandMessage (docState : DocumentState).

(** [service.FailureType]; the processor uses one constant. *)
Inductive FailureType : Type := InternalHandlerException.

(** One constructor per effectful call the processor makes. *)
Inductive Event : Type :=
  | LogError (msg : string)
  | PersistDataCall (commandID instanceID folder : string) (d : DocumentState)
  | PersistDocumentInfoCall (info : DocumentInfo) (commandID instanceID folder : string)
  | MoveCommandStateCall (commandID instanceID src dst : string)
  | SendResponseCall (messageID pluginID : string) (outputs : gmap string PluginResult)
  | SendDocLevelResponseCall (messageID : string) (status : ResultStatus) (info : string)
  | RunPluginsCall (messageID : string) (configs : gmap string Configuration)
  | SubmitCall (pool : Pool) (jobID : string) (job : Job)
  | CancelCall (pool : Pool) (jobID : string)
  | FailMessageCall (messageID : string) (reason : FailureType)
  | AcknowledgeMessageCall (messageID : string)
  | DeleteMessageCall (messageID : string)
  | HandleAwsErrorCall.

(** A file of the state tree either holds the JSON of a document or
    something [jsonutil.UnmarshalFile] fails on. *)
Inductive File : Type :=
  | FileDoc (d : DocumentState)
  | FileUnreadable.

(** A path [<DataStorePath>/<instanceID>/<CommandRoot>/state/<folder>/<name>]
    is kept as its three varying components. *)
Definition Path : Type := string * string * string.

Record World : Type := mkWorld {
  store : gmap (string * string * string) File;
  trace : list Event
}.

(** Modelled from the spec: the folder names of [appconfig]
    ([DefaultLocationOfPending], [DefaultLocationOfCurrent],
    [DefaultLocationOfCompleted]) are missing from the sources; the
    on-disk layout [state/{pending|current|completed}] gives them. *)
Definition DefaultLocationOfPending : string := "pending".
Definition DefaultLocationOfCurrent : string := "current".
Definition DefaultLocationOfCompleted : string := "completed".

(** Modelled from the spec: the topic prefixes [SendCommandTopicPrefix]
    and [CancelCommandTopicPrefix] are declared in another file of the
    package; the routing rule names them. *)
Definition SendCommandTopicPrefix : string := "aws.ssm.sendCommand.".
Definition CancelCommandTopicPrefix : string := "aws.ssm.cancelCommand.".

(** The [range] statements over maps, one name per statement. *)
Inductive RangeSite : Type :=
  | RangeRebootStatus      (* processMessagesFromCurrent, over PluginsInformation *)
  | RangePendingPlugins    (* runCmdsUsingCmdState, over command.PluginsInformation *)
  | RangeOutputs           (* runCmdsUsingCmdState, over newCmdState.PluginsInformation *)
  | RangeIsUpdate          (* both executors, over pluginConfigurations *)
  | RangeLoadConfigs.      (* loadPluginConfigurations, over plugins *)

(** Everything the processor is configured with or calls out to.

    - [InstanceID]: [platform.InstanceID()], [None] when it fails.
    - [IsAssociation]: the method of [DocumentState].
    - [ReadDirErr]: whether [ioutil.ReadDir] fails on a state folder.
    - [loadDocStateFromSendCommand], [loadDocStateFromCancelCommand]:
      the two package variables holding the parsers, [None] for a
      parse error.
    - [runPlugins]: the [PluginRunner]; it returns the plugin outputs
      and may write to the state store and send plugin replies.  The
      cancel flag it polls belongs to the pool and is left implicit.
    - [SubmitErr], [CancelFound]: the outcome of [Pool.Submit] and
      [Pool.Cancel].
    - [FailMessageErr], [AcknowledgeMessageErr], [DeleteMessageErr]:
      whether the MDS call returns an error.
    - [rangeOrder]: the order in which one [range] statement visits
      the keys of a map; Go leaves it unspecified.
    - [loopVarPerIteration]: [true] for Go 1.22 semantics and later
      (a fresh range variable per iteration), [false] before (one
      variable per loop). *)
Record Env : Type := mkEnv {
  InstanceID : option string;
  CommandRetryLimit : Z;
  PluginNameAwsAgentUpdate : string;
  IsAssociation : DocumentState → bool;
  ReadDirErr : string → World → bool;
  loadDocStateFromSendCommand : Message → option DocumentState;
  loadDocStateFromCancelCommand : Message → option DocumentState;
  runPlugins : string → gmap string Configuration → World →
               gmap string PluginResult * World;
  buildReply : string → gmap string PluginResult → SendReplyPayload;
  SubmitErr : Pool → string → World → bool;
  CancelFound : string → World → bool;
  FailMessageErr : string → World → bool;
  AcknowledgeMessageErr : string → World → bool;
  DeleteMessageErr : string → World → bool;
  rangeOrder : RangeSite → gset string → list string;
  loopVarPerIteration : bool
}.

(** A [range] order is admissible when it visits every key once. *)
Definition rangeOrderOk (env : Env) : Prop :=
  ∀ site (ks : gset string),
    NoDup (rangeOrder env site ks) ∧ ∀ k, k ∈ rangeOrder env site ks ↔ k ∈ ks.

(** ** A state monad over the world *)

Definition M (A : Type) : Type := World → A * World.

Definition ret {A} (a : A) : M A := λ w, (a, w).

Definition bind {A B} (m : M A) (k : A → M B) : M B :=
  λ w, let '(a, w1) := m w in k a w1.

Notation "'let*' x ':=' m 'in' k" := (bind m (λ x, k))
  (at level 10, x name, m at level 100, k at level 200, only parsing).

Definition emit (e : Event) : M unit :=
  λ w, (tt, mkWorld (store w) (trace w ++ [e])).

Definition ask {A} (f : World → A) : M A := λ w, (f w, w).

Definition exec {A} (m : M A) (w : World) : World := (m w).2.

(** ** The state store ([statemanager], [jsonutil], [fileutil]) *)

Definition readDoc (p : Path) (w : World) : option DocumentState :=
  match store w !! p with
  | Some (FileDoc d) => Some d
  | _ => None
  end.

(** [jsonutil.UnmarshalFile(file, &docState)]: [None] is an error. *)
Definition UnmarshalFile (instanceID folder name : string) : M (option DocumentState) :=
  ask (readDoc (instanceID, folder, name)).

(** Modelled from the spec: [PersistData] is missing from the sources.
    It writes or overwrites the record of the command in the folder. *)
Definition PersistData (commandID instanceID folder : string) (d : DocumentState) : M unit :=
  λ w, (tt, mkWorld (<[(instanceID, folder, commandID) := FileDoc d]> (store w))
                    (trace w ++ [PersistDataCall commandID instanceID folder d])).

(** Modelled from the spec: [GetCommandInterimState] is missing from
    the sources.  It reads back the record on disk; with no readable
    record the result is the zero document. *)
Definition GetCommandInterimState (commandID instanceID folder : string) : M DocumentState :=
  ask (λ w, default zeroDocumentState (readDoc (instanceID, folder, commandID) w)).

(** Modelled from the spec: [GetDocumentInfo] is missing from the
    sources.  It reads the document-level fields only. *)
Definition GetDocumentInfo (commandID instanceID folder : string) : M DocumentInfo :=
  ask (λ w, DocumentInformation
              (default zeroDocumentState (readDoc (instanceID, folder, commandID) w))).

(** Modelled from the spec: [PersistDocumentInfo] is missing from the
    sources.  It puts the document-level fields into the existing
    record and leaves [PluginsInformation] as it is. *)
Definition PersistDocumentInfo (info : DocumentInfo) (commandID instanceID folder : string) : M unit :=
  λ w, let d := default zeroDocumentState (readDoc (instanceID, folder, commandID) w) in
       (tt, mkWorld (<[(instanceID, folder, commandID) := FileDoc (setDocumentInformation info d)]> (store w))
                    (trace w ++ [PersistDocumentInfoCall info commandID instanceID folder])).

(** Modelled from the spec: [MoveCommandState] is missing from the
    sources.  It renames the record from one folder to the other; with
    no file to rename the store is left as it is. *)
Definition moveFile (src dst : Path) (s : gmap (string * string * string) File) :
    gmap (string * string * string) File :=
  match s !! src with
  | Some f => <[dst := f]> (delete src s)
  | None => s
  end.

Definition MoveCommandState (commandID instanceID src dst : string) : M unit :=
  λ w, (tt, mkWorld (moveFile (instanceID, src, commandID) (instanceID, dst, commandID) (store w))
                    (trace w ++ [MoveCommandStateCall commandID instanceID src dst])).

(** The names in a folder, sorted by file name as [ioutil.ReadDir]
    returns them. *)
Fixpoint insertSorted (x : string) (l : list string) : list string :=
  match l with
  | [] => [x]
  | y :: l' => if String.leb x y then x :: l else y :: insertSorted x l'
  end.

Definition sortNames (l : list string) : list string := foldr insertSorted [] l.

Definition folderNames (instanceID folder : string) (w : World) : list string :=
  sortNames
    (omap (λ p : string * string * string,
             if decide (p.1.1 = instanceID ∧ p.1.2 = folder) then Some p.2 else None)
          (elements (dom (store w)))).

(** [fileutil.IsDirEmpty]; its error is dropped by the callers. *)
Definition IsDirEmpty (instanceID folder : string) : M bool :=
  ask (λ w, bool_decide (folderNames instanceID folder w = [])).

(** [ioutil.ReadDir]: [None] is an error. *)
Definition ReadDir (env : Env) (instanceID folder : string) : M (option (list string)) :=
  ask (λ w, if ReadDirErr env folder w then None else Some (folderNames instanceID folder w)).

(** ** Calls to the pools, the MDS service and the plugin runner *)

(** [pool.Submit(log, jobID, job)]; the result is [true] for an error. *)
Definition Submit (env : Env) (pool : Pool) (jobID : string) (job : Job) : M bool :=
  λ w, (SubmitErr env pool jobID w,
        mkWorld (store w) (trace w ++ [SubmitCall pool jobID job])).

(** [sendCommandPool.Cancel(jobID)]; the result is [found]. *)
Definition Cancel (env : Env) (jobID : string) : M bool :=
  λ w, (CancelFound env jobID w,
        mkWorld (store w) (trace w ++ [CancelCall sendCommandPool jobID])).

(** [if err := mdsService.DeleteMessage(log, id); err != nil
       { sdkutil.HandleAwsError(log, err, p.processorStopPolicy) }] *)
Definition DeleteMessage (env : Env) (messageID : string) : M unit :=
  let* err := ask (DeleteMessageErr env messageID) in
  let* _ := emit (DeleteMessageCall messageID) in
  if err : bool then emit HandleAwsErrorCall else ret tt.

(** [runPlugins(context, messageID, pluginConfigurations, sendResponse, cancelFlag)] *)
Definition callRunPlugins (env : Env) (messageID : string)
    (pluginConfigurations : gmap string Configuration) : M (gmap string PluginResult) :=
  let* _ := emit (RunPluginsCall messageID pluginConfigurations) in
  runPlugins env messageID pluginConfigurations.

(** ** Maps of pointers filled inside a [range] loop

    [for k, v := range m { ... out[k] = &v.F ... }] stores the address
    of a field of the range variable.  Before Go 1.22 the loop has one
    range variable, so every entry of [out] is the same address and a
    reader after the loop finds under every key the field of the value
    the variable was assigned last; from Go 1.22 on each iteration has
    its own variable.  [kept] records the value of the range variable
    at each store, [rangeVar] its last value. *)
Record Collected : Type := mkCollected {
  kept : gmap string PluginState;
  rangeVar : option PluginState
}.

Definition deref {A} (env : Env) (f : PluginState → A) (c : Collected) : gmap string A :=
  if loopVarPerIteration env then f <$> kept c
  else match rangeVar c with
       | Some v => (λ _, f v) <$> kept c
       | None => ∅
       end.

(** ** [loadPluginConfigurations]

    [for pluginName, pluginConfig := range plugins {
        if pluginConfig.HasExecuted { break }
        configs[pluginName] = &pluginConfig.Configuration }] *)
Fixpoint loadPluginConfigurationsLoop (plugins : gmap string PluginState)
    (order : list string) (configs : Collected) : Collected :=
  match order with
  | [] => configs
  | pluginName :: rest =>
      match plugins !! pluginName with
      | None => loadPluginConfigurationsLoop plugins rest configs
      | Some pluginConfig =>
          if HasExecuted pluginConfig
          then mkCollected (kept configs) (Some pluginConfig)
          else loadPluginConfigurationsLoop plugins rest
                 (mkCollected (<[pluginName := pluginConfig]> (kept configs))
                              (Some pluginConfig))
      end
  end.

Definition loadPluginConfigurations (env : Env) (plugins : gmap string PluginState) :
    gmap string Configuration :=
  deref env PluginConfiguration
    (loadPluginConfigurationsLoop plugins
       (rangeOrder env RangeLoadConfigs (dom plugins)) (mkCollected ∅ None)).

(** The first loop of [runCmdsUsingCmdState]:
    [for k, v := range command.PluginsInformation {
        if v.HasExecuted { log } else {
          pluginConfigurations[k] = &v.Configuration; pendingPlugins = true } }] *)
Definition pendingPluginsStep (plugins : gmap string PluginState)
    (acc : Collected * bool) (k : string) : Collected * bool :=
  match plugins !! k with
  | None => acc
  | Some v =>
      if HasExecuted v
      then (mkCollected (kept acc.1) (Some v), acc.2)
      else (mkCollected (<[k := v]> (kept acc.1)) (Some v), true)
  end.

Definition pendingPluginsLoop (plugins : gmap string PluginState)
    (order : list string) : Collected * bool :=
  foldl (pendingPluginsStep plugins) (mkCollected ∅ None, false) order.

(** [for k, v := range newCmdState.PluginsInformation { outputs[k] = &v.Result }] *)
Definition outputsStep (plugins : gmap string PluginState)
    (acc : Collected) (k : string) : Collected :=
  match plugins !! k with
  | None => acc
  | Some v => mkCollected (<[k := v]> (kept acc)) (Some v)
  end.

Definition outputsLoop (plugins : gmap string PluginState) (order : list string) : Collected :=
  foldl (outputsStep plugins) (mkCollected ∅ None) order.

(** [isUpdate := false
     for pluginName := range pluginConfigurations {
        if pluginName == appconfig.PluginNameAwsAgentUpdate { isUpdate = true } }] *)
Definition isUpdateLoop (env : Env) (order : list string) : bool :=
  foldl (λ (isUpdate : bool) pluginName,
           if decide (pluginName = PluginNameAwsAgentUpdate env) then true else isUpdate)
        false order.

Definition isUpdate (env : Env) (pluginConfigurations : gmap string Configuration) : bool :=
  isUpdateLoop env (rangeOrder env RangeIsUpdate (dom pluginConfigurations)).

(** ** The send-command executors *)

(** What both executors do once the reply envelope has been persisted:
    the reboot gate, the document-level reply, the move to [completed]
    and the deletion of the message.  [replyID] is the message id the
    reply goes out under, [commandID], [destination] and [deleteID]
    are the ids used for the move and the deletion. *)
Definition finishDocument (env : Env) (documentInfo : DocumentInfo)
    (pluginConfigurations : gmap string Configuration)
    (outputs : gmap string PluginResult)
    (replyID commandID destination deleteID : string) : M unit :=
  if decide (DocumentStatus documentInfo = ResultStatusSuccessAndReboot)
  then ret tt
  else
    let* _ := emit (SendResponseCall replyID "" outputs) in
    let* _ := MoveCommandState commandID destination
                DefaultLocationOfCurrent DefaultLocationOfCompleted in
    if negb (isUpdate env pluginConfigurations)
    then DeleteMessage env deleteID
    else ret tt.

(** [processSendCommandMessage] *)
Definition processSendCommandMessage (env : Env) (docState : DocumentState) : M unit :=
  let info := DocumentInformation docState in
  let pluginConfigurations := loadPluginConfigurations env (PluginsInformation docState) in
  let* outputs := callRunPlugins env (MessageID info) pluginConfigurations in
  let payloadDoc := buildReply env "" outputs in
  let* documentInfo := GetDocumentInfo (CommandID info) (Destination info)
                         DefaultLocationOfCurrent in
  let documentInfo := setReplyFields payloadDoc documentInfo in
  let* _ := PersistDocumentInfo documentInfo (CommandID info) (Destination info)
              DefaultLocationOfCurrent in
  finishDocument env documentInfo pluginConfigurations outputs
    (MessageID info) (CommandID info) (Destination info) (MessageID info).

(** [runCmdsUsingCmdState], first part: the configurations of the
    plugins that have not executed and the [pendingPlugins] flag. *)
Definition pendingConfigurations (env : Env) (command : DocumentState) :
    gmap string Configuration * bool :=
  let found := pendingPluginsLoop (PluginsInformation command)
                 (rangeOrder env RangePendingPlugins (dom (PluginsInformation command))) in
  (deref env PluginConfiguration found.1, found.2).

(** [if pendingPlugins { runPlugins(...) }]; the outputs of the runner
    are dropped. *)
Definition runPendingPlugins (env : Env) (command : DocumentState) : M unit :=
  let found := pendingConfigurations env command in
  if found.2
  then let* _ := callRunPlugins env (MessageID (DocumentInformation command)) found.1 in ret tt
  else ret tt.

(** The reply payload of [runCmdsUsingCmdState], built from the state
    read back from disk. *)
Definition cmdStateOutputs (env : Env) (newCmdState : DocumentState) : gmap string PluginResult :=
  deref env Result
    (outputsLoop (PluginsInformation newCmdState)
       (rangeOrder env RangeOutputs (dom (PluginsInformation newCmdState)))).

(** [runCmdsUsingCmdState] *)
Definition runCmdsUsingCmdState (env : Env) (command : DocumentState) : M unit :=
  let info := DocumentInformation command in
  let pluginConfigurations := (pendingConfigurations env command).1 in
  let* _ := runPendingPlugins env command in
  let* newCmdState := GetCommandInterimState (CommandID info) (Destination info)
                        DefaultLocationOfCurrent in
  let outputs := cmdStateOutputs env newCmdState in
  let payloadDoc := buildReply env "" outputs in
  let documentInfo := setReplyFields payloadDoc zeroDocumentInfo in
  let* _ := PersistDocumentInfo documentInfo (CommandID info) (Destination info)
              DefaultLocationOfCurrent in
  let newInfo := DocumentInformation newCmdState in
  finishDocument env documentInfo pluginConfigurations outputs
    (MessageID info) (CommandID newInfo) (Destination newInfo) (MessageID newInfo).

(** ** The cancel-command executor *)

(** [processCancelCommandMessage]; the document is updated through the
    pointer the caller passed, the updated document is the result. *)
Definition processCancelCommandMessage (env : Env) (docState : DocumentState) : M DocumentState :=
  let cancel := CancelInformation docState in
  let* found := Cancel env (CancelMessageID cancel) in
  let docState :=
    if negb found
    then setDocumentInformation
           (setDocumentStatus ResultStatusFailed (DocumentInformation docState))
           (setCancelInformation
              (setDebugInfo ("Command " ++ CancelCommandID cancel ++ " couldn't be cancelled")%string
                            cancel)
              docState)
    else setDocumentInformation
           (setDocumentStatus ResultStatusSuccess (DocumentInformation docState))
           (setCancelInformation
              (setDebugInfo ("Command " ++ CancelCommandID cancel ++ " cancelled")%string cancel)
              docState) in
  let info := DocumentInformation docState in
  let* _ := PersistData (CommandID info) (Destination info) DefaultLocationOfCurrent docState in
  let* _ := MoveCommandState (CommandID info) (Destination info)
              DefaultLocationOfCurrent DefaultLocationOfCompleted in
  let* _ := DeleteMessage env (MessageID info) in
  ret docState.

(** What a submitted job does when a worker runs it. *)
Definition runJob (env : Env) (job : Job) : M unit :=
  match job with
  | JobProcessSendCommandMessage docState => processSendCommandMessage env docState
  | JobRunCmdsUsingCmdState command => runCmdsUsingCmdState env command
  | JobProcessCancelCommandMessage docState =>
      let* _ := processCancelCommandMessage env docState in ret tt
  end.

(** ** [submitDocForExecution] *)
Definition submitDocForExecution (env : Env) (docState : DocumentState) : M unit :=
  let info := DocumentInformation docState in
  let* _ := MoveCommandState (CommandID info) (Destination info)
              DefaultLocationOfPending DefaultLocationOfCurrent in
  match DocType docState with
  | SendCommand =>
      let* err := Submit env sendCommandPool (MessageID info)
                    (JobProcessSendCommandMessage docState) in
      if err : bool then emit (LogError "SendCommand failed") else ret tt
  | CancelCommand =>
      let* err := Submit env cancelCommandPool (MessageID info)
                    (JobProcessCancelCommandMessage docState) in
      if err : bool then emit (LogError "CancelCommand failed") else ret tt
  | DocumentTypeOther _ =>
      emit (LogError "unexpected document type ")
  end.

(** ** The recovery scanner *)

(** The loop of [processOlderMessages] over the files of [pending];
    a [break] ends the recursion. *)
Fixpoint pendingLoop (env : Env) (instanceID : string) (files : list string) : M unit :=
  match files with
  | [] => ret tt
  | f :: rest =>
      let* r := UnmarshalFile instanceID DefaultLocationOfPending f in
      match r with
      | None =>
          emit (LogError "skipping processsing of pending messages.")
      | Some docState =>
          if IsAssociation env docState
          then ret tt
          else
            let* _ := submitDocForExecution env docState in
            pendingLoop env instanceID rest
      end
  end.

(** The loop of [processMessagesFromCurrent] that resumes plugins
    which asked for a reboot:
    [for v := range docState.PluginsInformation {
        plugin := docState.PluginsInformation[v]
        if plugin.HasExecuted && plugin.Result.Status == SuccessAndReboot {
          plugin.Result.Status = Success
          docState.PluginsInformation[v] = plugin
          pluginOutputs[v] = &plugin.Result
          p.sendResponse(MessageID, v, pluginOutputs) } }]
    A key that is not in the map reads as the zero plugin state, whose
    [HasExecuted] is [false]. *)
Definition rebooted (plugin : PluginState) : bool :=
  HasExecuted plugin && bool_decide (Status (Result plugin) = ResultStatusSuccessAndReboot).

Fixpoint rebootLoop (messageID : string) (order : list string)
    (plugins : gmap string PluginState) (pluginOutputs : gmap string PluginResult) :
    M (gmap string PluginState) :=
  match order with
  | [] => ret plugins
  | v :: rest =>
      match plugins !! v with
      | Some plugin =>
          if rebooted plugin
          then
            let plugin := setResultStatus ResultStatusSuccess plugin in
            let plugins := <[v := plugin]> plugins in
            let pluginOutputs := <[v := Result plugin]> pluginOutputs in
            let* _ := emit (SendResponseCall messageID v pluginOutputs) in
            rebootLoop messageID rest plugins pluginOutputs
          else rebootLoop messageID rest plugins pluginOutputs
      | None => rebootLoop messageID rest plugins pluginOutputs
      end
  end.

(** One document of the [current] folder that passed the guards:
    count the run, resume rebooted plugins, persist, resubmit.  The
    result is the error of [Submit]. *)
Definition resumeDocument (env : Env) (instanceID : string) (docState : DocumentState) : M bool :=
  let info := DocumentInformation docState in
  let info := setRunCount (wrapInt (RunCount info + 1)) info in
  let docState := setDocumentInformation info docState in
  let* plugins := rebootLoop (MessageID info)
                    (rangeOrder env RangeRebootStatus (dom (PluginsInformation docState)))
                    (PluginsInformation docState) ∅ in
  let docState := setPluginsInformation plugins docState in
  let* _ := PersistData (CommandID info) instanceID DefaultLocationOfCurrent docState in
  Submit env sendCommandPool (MessageID info) (JobRunCmdsUsingCmdState docState).

(** The loop of [processMessagesFromCurrent] over the files of
    [current]; a [break] ends the recursion. *)
Fixpoint currentLoop (env : Env) (instanceID : string) (files : list string) : M unit :=
  match files with
  | [] => ret tt
  | f :: rest =>
      let* r := UnmarshalFile instanceID DefaultLocationOfCurrent f in
      match r with
      | None =>
          emit (LogError "skipping processsing of previously unexecuted messages.")
      | Some docState =>
          if IsAssociation env docState
          then ret tt
          else if bool_decide (RunCount (DocumentInformation docState) >= CommandRetryLimit env)
          then ret tt
          else
            let* err := resumeDocument env instanceID docState in
            if err : bool
            then emit (LogError "SendCommand failed for previously unexecuted commands")
            else currentLoop env instanceID rest
      end
  end.

(** [processMessagesFromCurrent] *)
Definition processMessagesFromCurrent (env : Env) (instanceID : string) : M unit :=
  let* isDirectoryEmpty := IsDirEmpty instanceID DefaultLocationOfCurrent in
  if isDirectoryEmpty : bool
  then ret tt
  else
    let* files := ReadDir env instanceID DefaultLocationOfCurrent in
    match files with
    | None => emit (LogError "skipping reading inprogress messages")
    | Some files => currentLoop env instanceID files
    end.

(** [processOlderMessages] *)
Definition processOlderMessages (env : Env) : M unit :=
  match InstanceID env with
  | None => emit (LogError "error fetching instance id")
  | Some instanceID =>
      let* isDirectoryEmpty := IsDirEmpty instanceID DefaultLocationOfPending in
      if isDirectoryEmpty : bool
      then processMessagesFromCurrent env instanceID
      else
        let* files := ReadDir env instanceID DefaultLocationOfPending in
        match files with
        | None => emit (LogError "skipping reading pending messages")
        | Some files =>
            let* _ := pendingLoop env instanceID files in
            processMessagesFromCurrent env instanceID
        end
  end.

(** ** The ingress dispatcher *)

(** Modelled from the spec: [validate] is declared in another file of
    the package.  It checks the structural fields: [MessageId],
    [Topic], [Payload] and [Destination] are not nil. *)
Definition validate (msg : Message) : bool :=
  bool_decide (is_Some (MessageId msg)) && bool_decide (is_Some (Topic msg)) &&
  bool_decide (is_Some (Payload msg)) && bool_decide (is_Some (MsgDestination msg)).

(** Modelled from the spec: [p.persistData] is a field of the processor
    set up in another file.  It persists the parsed document to the
    given folder of the state store. *)
Definition persistData (docState : DocumentState) (folder : string) : M unit :=
  PersistData (CommandID (DocumentInformation docState))
              (Destination (DocumentInformation docState)) folder docState.

(** A call either returns or panics on a nil pointer. *)
Inductive Outcome : Type :=
  | Returned (w : World)
  | Panicked (w : World).

(** The part of [processMessage] after a message has been parsed. *)
Definition acceptMessage (env : Env) (messageId : string) (docState : DocumentState) : M unit :=
  let* _ := persistData docState DefaultLocationOfPending in
  let* err := ask (AcknowledgeMessageErr env messageId) in
  let* _ := emit (AcknowledgeMessageCall messageId) in
  if err : bool
  then emit HandleAwsErrorCall
  else
    let* _ := emit (SendDocLevelResponseCall messageId ResultStatusInProgress "") in
    submitDocForExecution env docState.

(** The part of [processMessage] that rejects a message. *)
Definition rejectMessage (env : Env) (messageId : string) : M unit :=
  let* _ := emit (LogError "format of received message is invalid ") in
  let* err := ask (FailMessageErr env messageId) in
  let* _ := emit (FailMessageCall messageId InternalHandlerException) in
  if err : bool then emit HandleAwsErrorCall else ret tt.

(** [processMessage].  The first statement builds the logging context
    from [*msg.MessageId], ahead of [validate]; [*msg.Topic] is read
    after it. *)
Definition processMessage (env : Env) (msg : Message) (w : World) : Outcome :=
  match MessageId msg with
  | None => Panicked w
  | Some messageId =>
      if negb (validate msg)
      then Returned (exec (emit (LogError "message not valid, ignoring: ")) w)
      else
        match Topic msg with
        | None => Panicked w
        | Some topic =>
            let parsed :=
              if String.prefix SendCommandTopicPrefix topic
              then loadDocStateFromSendCommand env msg
              else if String.prefix CancelCommandTopicPrefix topic
              then loadDocStateFromCancelCommand env msg
              else None in
            match parsed with
            | None => Returned (exec (rejectMessage env messageId) w)
            | Some docState => Returned (exec (acceptMessage env messageId docState) w)
            end
        end
  end.

(** ** Sample collaborators, documents and worlds

    Concrete environments on which the statements below are exercised. *)

(** A reply builder: the document asks for a reboot when one of the
    plugin outputs does, and has succeeded otherwise. *)
Definition sampleReply (outputs : gmap string PluginResult) : SendReplyPayload :=
  mkSendReplyPayload ""
    (if bool_decide (map_Exists (λ _ r, Status r = ResultStatusSuccessAndReboot) outputs)
     then ResultStatusSuccessAndReboot else ResultStatusSuccess)
    "" "".

Definition samplePlugin (executed : bool) (status : ResultStatus) : PluginState :=
  mkPluginState (mkConfiguration "{}") executed (mkPluginResult status "").

Definition sampleDoc (type : DocumentType) (commandID : string) (runCount : Z)
    (plugins : gmap string PluginState) : DocumentState :=
  mkDocumentState
    (mkDocumentInfo commandID ("aws.ssm." ++ commandID ++ ".i-1")%string "i-1"
                    ResultStatusInProgress runCount "" "" "")
    type plugins
    (mkCancelCommandInfo "aws.ssm.m1.i-1" "m1" "").

(** What the sample parsers make of a send-command and of a
    cancel-command message. *)
Definition sampleSend : DocumentState :=
  sampleDoc SendCommand "m3" 0 {[ "B" := samplePlugin false (ResultStatusOther "") ]}.

Definition sampleCancel : DocumentState := sampleDoc CancelCommand "c1" 0 ∅.

(** An environment in which nothing fails, the retry limit is 3, the
    parsers accept the payloads [{send}] and [{cancel}], the
    plugin runner reports [status] for every plugin it is given, and a
    job is found by [Cancel] when it has been submitted. *)
Definition sampleEnv (status : ResultStatus) (order : gset string → list string) : Env :=
  mkEnv (Some "i-1") 3 "aws:updateSsmAgent"
        (λ d, bool_decide (DocType d = DocumentTypeOther "Association"))
        (λ _ _, false)
        (λ msg, if decide (Payload msg = Some "{send}") then Some sampleSend else None)
        (λ msg, if decide (Payload msg = Some "{cancel}") then Some sampleCancel else None)
        (λ _ configs w, ((λ _, mkPluginResult status "") <$> configs, w))
        (λ _ outputs, sampleReply outputs)
        (λ _ _ _, false)
        (λ jobID w, existsb (λ e, match e with
                                  | SubmitCall sendCommandPool j _ => String.eqb j jobID
                                  | _ => false
                                  end) (trace w))
        (λ _ _, false) (λ _ _, false) (λ _ _, false)
        (λ _, order) false.

Definition okEnv : Env := sampleEnv ResultStatusSuccess elements.
Definition rebootEnv : Env := sampleEnv ResultStatusSuccessAndReboot elements.

(** [m1] has used up its retries, [m2] was interrupted by the reboot
    its plugin [A] asked for and still has plugin [B] to run. *)
Definition poisonedDoc : DocumentState := sampleDoc SendCommand "m1" 3 ∅.

Definition resumableDoc : DocumentState :=
  sampleDoc SendCommand "m2" 0
    {[ "A" := samplePlugin true ResultStatusSuccessAndReboot;
       "B" := samplePlugin false (ResultStatusOther "") ]}.

Definition freshDoc : DocumentState := sampleSend.

Definition associationDoc : DocumentState :=
  sampleDoc (DocumentTypeOther "Association") "m0" 0 ∅.

Definition cancelDoc : DocumentState := sampleCancel.

(** A document whose agent-update plugin has already run. *)
Definition updatedDoc : DocumentState :=
  sampleDoc SendCommand "m4" 0 {[ "aws:updateSsmAgent" := samplePlugin true ResultStatusSuccess ]}.

(** A document whose only plugin has run and asked for a reboot. *)
Definition rebootedDoc : DocumentState :=
  sampleDoc SendCommand "m5" 0 {[ "A" := samplePlugin true ResultStatusSuccessAndReboot ]}.

Definition emptyWorld : World := mkWorld ∅ [].

Definition worldWith (files : list (string * string * string * File)) : World :=
  mkWorld (list_to_map files) [].

(** [current] holds the poisoned [m1] and, after it, the resumable [m2]. *)
Definition poisonedWorld : World :=
  worldWith [("i-1", "current", "m1", FileDoc poisonedDoc);
             ("i-1", "current", "m2", FileDoc resumableDoc)].

(** [pending] holds an unreadable file [a] and, after it, the fresh [m3]. *)
Definition unreadableWorld : World :=
  worldWith [("i-1", "pending", "a", FileUnreadable);
             ("i-1", "pending", "m3", FileDoc freshDoc)].

(** [pending] and [current] each hold an association document followed
    by a document of the processor's own. *)
Definition associationWorld : World :=
  worldWith [("i-1", "pending", "m0", FileDoc associationDoc);
             ("i-1", "pending", "m3", FileDoc freshDoc);
             ("i-1", "current", "m0", FileDoc associationDoc);
             ("i-1", "current", "m2", FileDoc resumableDoc)].

Definition resumableWorld : World :=
  worldWith [("i-1", "current", "m2", FileDoc resumableDoc)].

Definition updatedWorld : World :=
  worldWith [("i-1", "current", "m4", FileDoc updatedDoc)].

Definition rebootedWorld : World :=
  worldWith [("i-1", "current", "m5", FileDoc rebootedDoc)].

Definition freshWorld : World :=
  worldWith [("i-1", "current", "m3", FileDoc freshDoc)].

(** ** Reading the trace *)

Definition isDeleteMessage (e : Event) : bool :=
  match e with DeleteMessageCall _ => true | _ => false end.

Definition isSubmit (e : Event) : bool :=
  match e with SubmitCall _ _ _ => true | _ => false end.

Definition isFailMessage (e : Event) : bool :=
  match e with FailMessageCall _ InternalHandlerException => true | _ => false end.

Definition isDocumentReply (e : Event) : bool :=
  match e with SendResponseCall _ "" _ => true | _ => false end.

Definition isMove (e : Event) : bool :=
  match e with MoveCommandStateCall _ _ _ _ => true | _ => false end.

(** The number of events of a kind in a trace. *)
Definition countEvents (p : Event → bool) (t : list Event) : nat :=
  length (List.filter p t).

(** The events a computation adds to the trace of the world it starts in. *)
Definition added {A} (m : M A) (w : World) : list Event :=
  drop (length (trace w)) (trace (exec m w)).

(** The error handler runs when the MDS call has returned an error. *)
Definition handled (err : bool) : list Event :=
  if err then [HandleAwsErrorCall] else [].

(** ** The two passes of the recovery scanner, side by side *)

Inductive Pass : Type := PendingPass | CurrentPass.

Definition passFolder (pass : Pass) : string :=
  match pass with
  | PendingPass => DefaultLocationOfPending
  | CurrentPass => DefaultLocationOfCurrent
  end.

Definition passLoop (env : Env) (instanceID : string) (pass : Pass) : list string → M unit :=
  match pass with
  | PendingPass => pendingLoop env instanceID
  | CurrentPass => currentLoop env instanceID
  end.

(** The error logged when a file of the folder cannot be read. *)
Definition passSkipMessage (pass : Pass) : string :=
  match pass with
  | PendingPass => "skipping processsing of pending messages."
  | CurrentPass => "skipping processsing of previously unexecuted messages."
  end.

(** "A poisoned document is skipped and the scan goes on with the
    remaining files": the scan of [f :: rest] from [w], where [f] holds
    a document that has used up its retries, is the scan of [rest]
    from [w]. *)
Definition poisonedSkippedAndScanContinues (env : Env) (instanceID f : string)
    (rest : list string) (w : World) (docState : DocumentState) : Prop :=
  readDoc (instanceID, DefaultLocationOfCurrent, f) w = Some docState →
  IsAssociation env docState = false →
  RunCount (DocumentInformation docState) >= CommandRetryLimit env →
  currentLoop env instanceID (f :: rest) w = currentLoop env instanceID rest w.

(** "An unreadable file is skipped with a log entry and the scan goes
    on with the remaining files". *)
Definition unreadableSkippedAndScanContinues (env : Env) (instanceID : string) (pass : Pass)
    (f : string) (rest : list string) (w : World) : Prop :=
  readDoc (instanceID, passFolder pass, f) w = None →
  passLoop env instanceID pass (f :: rest) w =
    passLoop env instanceID pass rest
      (mkWorld (store w) (trace w ++ [LogError (passSkipMessage pass)])).

(** ** What a [range] loop has collected *)

(** A collection is well formed when entries exist only once the range
    variable has been assigned. *)
Definition collectedOk (c : Collected) : Prop :=
  rangeVar c = None → kept c = ∅.

(** The plugins that have not executed yet. *)
Definition notExecuted (plugins : gmap string PluginState) : gmap string PluginState :=
  filter (λ kv, HasExecuted kv.2 = false) plugins.

(** What the entry of key [k] becomes when the first loop of
    [runCmdsUsingCmdState] visits [k]. *)
Definition pendingEntry (plugins : gmap string PluginState) (k : string)
    (before : option PluginState) : option PluginState :=
  match plugins !! k with
  | Some v => if HasExecuted v then before else Some v
  | None => before
  end.

(** ** Stating what the executors leave behind *)

(** The record of the state store at a path, the zero document when
    there is none to read. *)
Definition recordAt (p : Path) (w : World) : DocumentState :=
  default zeroDocumentState (readDoc p w).

(** From world [w1] to world [w2] nothing happened but the write of
    [documentInfo] into the record of the command in [current]: the
    trace grew by that one call, the record is in [current] with the
    persisted document info and the plugin states it had, and every
    other file of the store is what it was. *)
Definition onlyDocumentInfoPersisted (w1 w2 : World) (documentInfo : DocumentInfo)
    (commandID destination : string) : Prop :=
  let here := (destination, DefaultLocationOfCurrent, commandID) in
  trace w2 = trace w1 ++ [PersistDocumentInfoCall documentInfo commandID destination
                            DefaultLocationOfCurrent] ∧
  readDoc here w2 = Some (setDocumentInformation documentInfo (recordAt here w1)) ∧
  ∀ p, p ≠ here → store w2 !! p = store w1 !! p.

(** The calls an executor makes, after the plugin runner has returned,
    for a document that does not ask for a reboot. *)
Definition completionCalls (documentInfo : DocumentInfo) (outputs : gmap string PluginResult)
    (persistCommandID persistDestination replyID commandID destination deleteID : string)
    (updating err : bool) : list Event :=
  [PersistDocumentInfoCall documentInfo persistCommandID persistDestination
     DefaultLocationOfCurrent;
   SendResponseCall replyID "" outputs;
   MoveCommandStateCall commandID destination
     DefaultLocationOfCurrent DefaultLocationOfCompleted]
  ++ (if updating then [] else DeleteMessageCall deleteID :: handled err).

(** "An executor never calls [DeleteMessage] for a document with an
    agent-update plugin, and calls it once for any other document":
    the number of [DeleteMessage] calls among the events the executor
    adds to the trace. *)
Definition deletesUnlessUpdatePlugin (env : Env) (executor : Env → DocumentState → M unit)
    (docState : DocumentState) (w : World) : Prop :=
  countEvents isDeleteMessage (added (executor env docState) w) =
    if bool_decide (PluginNameAwsAgentUpdate env ∈ dom (PluginsInformation docState))
    then 0%nat else 1%nat.

(** The parser the dispatcher routes a message to, applied to it:
    [None] when the topic has neither prefix or the parser fails. *)
Definition routed (env : Env) (msg : Message) : option DocumentState :=
  match Topic msg with
  | Some topic =>
      if String.prefix SendCommandTopicPrefix topic
      then loadDocStateFromSendCommand env msg
      else if String.prefix CancelCommandTopicPrefix topic
      then loadDocStateFromCancelCommand env msg
      else None
  | None => None
  end.

(** The cancel document as the executor marks it, by what
    [sendCommandPool.Cancel] returned. *)
Definition markedCancel (found : bool) (docState : DocumentState) : DocumentState :=
  let cancel := CancelInformation docState in
  setDocumentInformation
    (setDocumentStatus (if found then ResultStatusSuccess else ResultStatusFailed)
                       (DocumentInformation docState))
    (setCancelInformation
       (setDebugInfo ("Command " ++ CancelCommandID cancel ++
                      (if found then " cancelled" else " couldn't be cancelled"))%string
                     cancel)
       docState).

(** A plugin as the recovery scanner leaves it: one that had executed
    and asked for a reboot has its status rewritten to [Success]. *)
Definition resumed (plugin : PluginState) : PluginState :=
  if rebooted plugin then setResultStatus ResultStatusSuccess plugin else plugin.

Definition isPluginReply (messageID : string) (plugins : gmap string PluginState)
    (e : Event) : Prop :=
  ∃ v outputs, e = SendResponseCall messageID v outputs ∧ v ∈ dom plugins.

(** What the current pass does with the document [docState] of file
    [f] once it has passed the guards: [docState'] is the document
    with the run counted and the rebooted plugins resumed; the scanner
    sends the plugin-level [replies], then persists [docState'] to
    [current], then submits it to the send-command pool; the scan
    goes on with [rest] unless [Submit] fails. *)
Definition resumedBeforeResubmit (env : Env) (instanceID f : string) (rest : list string)
    (w : World) (docState : DocumentState) : Prop :=
  let info := DocumentInformation docState in
  ∃ (replies : list Event) (docState' : DocumentState) (err : bool),
    DocumentInformation docState' = setRunCount (wrapInt (RunCount info + 1)) info ∧
    PluginsInformation docState' = resumed <$> PluginsInformation docState ∧
    (let w1 := mkWorld
                 (<[(instanceID, DefaultLocationOfCurrent, CommandID info) := FileDoc docState']>
                    (store w))
                 (trace w ++ replies ++
                    [PersistDataCall (CommandID info) instanceID DefaultLocationOfCurrent docState';
                     SubmitCall sendCommandPool (MessageID info)
                       (JobRunCmdsUsingCmdState docState')]) in
     currentLoop env instanceID (f :: rest) w =
       if err
       then emit (LogError "SendCommand failed for previously unexecuted commands") w1
       else currentLoop env instanceID rest w1) ∧
    Forall (isPluginReply (MessageID info) (PluginsInformation docState)) replies ∧
    ∀ v plugin,
      PluginsInformation docState !! v = Some plugin →
      HasExecuted plugin = true →
      Status (Result plugin) = ResultStatusSuccessAndReboot →
      PluginsInformation docState' !! v = Some (setResultStatus ResultStatusSuccess plugin) ∧
      ∃ outputs,
        SendResponseCall (MessageID info) v outputs ∈ replies ∧
        outputs !! v = Some (mkPluginResult ResultStatusSuccess (Output (Result plugin))).

Definition isAcknowledge (e : Event) : bool :=
  match e with AcknowledgeMessageCall _ => true | _ => false end.

Definition isPersist (e : Event) : bool :=
  match e with
  | PersistDataCall _ _ _ _ | PersistDocumentInfoCall _ _ _ _ => true
  | _ => false
  end.

(** The kind of a call and the id it is about, for reading traces. *)
Definition callName (e : Event) : string :=
  match e with
  | LogError _ => "log.Error"
  | PersistDataCall c _ folder _ => "PersistData " ++ folder ++ "/" ++ c
  | PersistDocumentInfoCall _ c _ folder => "PersistDocumentInfo " ++ folder ++ "/" ++ c
  | MoveCommandStateCall c _ src dst => "MoveCommandState " ++ src ++ "/" ++ c ++ " " ++ dst
  | SendResponseCall m p _ => "sendResponse " ++ m ++ " [" ++ p ++ "]"
  | SendDocLevelResponseCall m _ _ => "sendDocLevelResponse " ++ m
  | RunPluginsCall m _ => "runPlugins " ++ m
  | SubmitCall sendCommandPool j _ => "sendCommandPool.Submit " ++ j
  | SubmitCall cancelCommandPool j _ => "cancelCommandPool.Submit " ++ j
  | CancelCall _ j => "sendCommandPool.Cancel " ++ j
  | FailMessageCall m _ => "FailMessage " ++ m
  | AcknowledgeMessageCall m => "AcknowledgeMessage " ++ m
  | DeleteMessageCall m => "DeleteMessage " ++ m
  | HandleAwsErrorCall => "HandleAwsError"
  end%string.

Definition returnedTrace (o : Outcome) : option (list string) :=
  match o with
  | Returned w => Some (callName <$> trace w)
  | Panicked _ => None
  end.

Definition sendMessage : Message :=
  mkMessage (Some "aws.ssm.m3.i-1") (Some "aws.ssm.sendCommand.us-east-1")
            (Some "{send}") (Some "i-1").

Definition cancelMessage : Message :=
  mkMessage (Some "aws.ssm.c1.i-1") (Some "aws.ssm.cancelCommand.us-east-1")
            (Some "{cancel}") (Some "i-1").

(** ** Reading the calls of the recovery scanner *)

(** The calls the pending pass can make: an error log, a move from
    [pending] to [current], and a submission of the executor that
    goes with the document type to the pool of that type. *)
Definition isPendingPassCall (e : Event) : bool :=
  match e with
  | LogError _ => true
  | MoveCommandStateCall _ _ src dst =>
      bool_decide (src = DefaultLocationOfPending ∧ dst = DefaultLocationOfCurrent)
  | SubmitCall sendCommandPool _ (JobProcessSendCommandMessage d) =>
      bool_decide (DocType d = SendCommand)
  | SubmitCall cancelCommandPool _ (JobProcessCancelCommandMessage d) =>
      bool_decide (DocType d = CancelCommand)
  | _ => false
  end.


(** The folder of a path. *)
Definition folderOf (p : Path) : string := p.1.2.

Definition isReply (e : Event) : bool :=
  match e with SendResponseCall _ _ _ => true | _ => false end.

Definition isRunPlugins (e : Event) : bool :=
  match e with RunPluginsCall _ _ => true | _ => false end.

(** The sample environment with a pending folder that cannot be listed. *)
Definition unlistableEnv : Env :=
  mkEnv (InstanceID okEnv) (CommandRetryLimit okEnv) (PluginNameAwsAgentUpdate okEnv)
        (IsAssociation okEnv)
        (λ folder _, bool_decide (folder = DefaultLocationOfPending))
        (loadDocStateFromSendCommand okEnv) (loadDocStateFromCancelCommand okEnv)
        (runPlugins okEnv) (buildReply okEnv) (SubmitErr okEnv) (CancelFound okEnv)
        (FailMessageErr okEnv) (AcknowledgeMessageErr okEnv) (DeleteMessageErr okEnv)
        (rangeOrder okEnv) (loopVarPerIteration okEnv).

(** [pending] holds a fresh document and [current] a resumable one. *)
Definition bothFoldersWorld : World :=
  worldWith [("i-1", "pending", "m3", FileDoc freshDoc);
             ("i-1", "current", "m2", FileDoc resumableDoc)].

(** A plugin-level reply for plugin [v]. *)
Definition isReplyFor (v : string) (e : Event) : bool :=
  match e with SendResponseCall _ pluginID _ => bool_decide (pluginID = v) | _ => false end.

(** Replies that accumulate: each one is a [sendResponse] whose outputs
    are those of the reply before it, with the plugin it is for added,
    and every output in it has status [Success]. *)
Fixpoint cumulativeReplies (seen : gset string) (replies : list Event) : Prop :=
  match replies with
  | [] => True
  | SendResponseCall _ v outputs :: rest =>
      dom outputs = seen ∪ {[v]} ∧
      map_Forall (λ _ r, Status r = ResultStatusSuccess) outputs ∧
      cumulativeReplies (seen ∪ {[v]}) rest
  | _ :: _ => False
  end.

(** The sample environment with a send-command pool that takes no job. *)
Definition closedPoolEnv : Env :=
  mkEnv (InstanceID okEnv) (CommandRetryLimit okEnv) (PluginNameAwsAgentUpdate okEnv)
        (IsAssociation okEnv) (ReadDirErr okEnv)
        (loadDocStateFromSendCommand okEnv) (loadDocStateFromCancelCommand okEnv)
        (runPlugins okEnv) (buildReply okEnv)
        (λ pool _ _, match pool with sendCommandPool => true | cancelCommandPool => false end)
        (CancelFound okEnv)
        (FailMessageErr okEnv) (AcknowledgeMessageErr okEnv) (DeleteMessageErr okEnv)
        (rangeOrder okEnv) (loopVarPerIteration okEnv).

(** [current] holds two resumable documents. *)
Definition twoResumableWorld : World :=
  worldWith [("i-1", "current", "m2", FileDoc resumableDoc);
             ("i-1", "current", "m3", FileDoc freshDoc)].

(** The sample environment under Go 1.22 loop-variable semantics. *)
Definition perIterationEnv : Env :=
  mkEnv (InstanceID okEnv) (CommandRetryLimit okEnv) (PluginNameAwsAgentUpdate okEnv)
        (IsAssociation okEnv) (ReadDirErr okEnv)
        (loadDocStateFromSendCommand okEnv) (loadDocStateFromCancelCommand okEnv)
        (runPlugins okEnv) (buildReply okEnv) (SubmitErr okEnv) (CancelFound okEnv)
        (FailMessageErr okEnv) (AcknowledgeMessageErr okEnv) (DeleteMessageErr okEnv)
        (rangeOrder okEnv) true.

(** A document whose plugins differ in configuration and result:
    [A] has failed, [B] has succeeded, [C] is still to run. *)
Definition mixedDoc : DocumentState :=
  sampleDoc SendCommand "m6" 1
    {[ "A" := mkPluginState (mkConfiguration "{a}") true
                (mkPluginResult ResultStatusFailed "a failed");
       "B" := mkPluginState (mkConfiguration "{b}") true
                (mkPluginResult ResultStatusSuccess "b done");
       "C" := mkPluginState (mkConfiguration "{c}") false
                (mkPluginResult (ResultStatusOther "") "") ]}.

(** The sample environment with an MDS service that fails to
    acknowledge. *)
Definition unacknowledgedEnv : Env :=
  mkEnv (InstanceID okEnv) (CommandRetryLimit okEnv) (PluginNameAwsAgentUpdate okEnv)
        (IsAssociation okEnv) (ReadDirErr okEnv)
        (loadDocStateFromSendCommand okEnv) (loadDocStateFromCancelCommand okEnv)
        (runPlugins okEnv) (buildReply okEnv) (SubmitErr okEnv) (CancelFound okEnv)
        (FailMessageErr okEnv) (λ _ _, true) (DeleteMessageErr okEnv)
        (rangeOrder okEnv) (loopVarPerIteration okEnv).

(** What [submitDocForExecution] does after the move, by document type. *)
Definition dispatchCalls (docState : DocumentState) (err : bool) : list Event :=
  let messageID := MessageID (DocumentInformation docState) in
  match DocType docState with
  | SendCommand =>
      SubmitCall sendCommandPool messageID (JobProcessSendCommandMessage docState)
      :: (if err then [LogError "SendCommand failed"] else [])
  | CancelCommand =>
      SubmitCall cancelCommandPool messageID (JobProcessCancelCommandMessage docState)
      :: (if err then [LogError "CancelCommand failed"] else [])
  | DocumentTypeOther _ => [LogError "unexpected document type "]
  end.

(** ** The message parsers

    [parseSendCommandMessage] and [parseCancelCommandMessage] are the
    initial values of the package variables [loadDocStateFromSendCommand]
    and [loadDocStateFromCancelCommand]. *)

(** [messageContracts.SendCommandPayload], with the fields the parser
    reads; [RuntimeConfig] stands for [DocumentContent.RuntimeConfig],
    which the parser passes on without looking into it. *)
Record SendCommandPayload : Type := mkSendCommandPayload {
  PayloadCommandID : string;            (* field [CommandID] *)
  DocumentName : string;
  RuntimeConfig : string;
  OutputS3BucketName : string;
  OutputS3KeyPrefix : string
}.

(** [messageContracts.CancelPayload]. *)
Record CancelPayload : Type := mkCancelPayload {
  PayloadCancelMessageID : string;      (* field [CancelMessageID] *)
  PayloadCancelCommandID : string       (* field [CancelCommandID] *)
}.

(** What the parsers call.

    - [getCommandID], [getPluginConfigurations],
      [initializeSendCommandState], [initializeCancelCommandState],
      [isManagedInstance], [isManagedInstanceIncompatibleAWSSSMDocument]
      and [removeDependencyOnInstanceMetadataForManagedInstance] are
      declared in other files of the package.
    - [ParseMessageWithParams] is [parser.ParseMessageWithParams] and
      [unmarshalCancelPayload] is [json.Unmarshal] into a
      [CancelPayload]; [None] is an error.
    - [pathJoin] and [filepathJoin] are [path.Join] and [filepath.Join].
    - [isManagedInstance] returns its answer together with whether an
      error came with it. *)
Record ParserEnv : Type := mkParserEnv {
  getCommandID : string → string;
  ParseMessageWithParams : string → option SendCommandPayload;
  pathJoin : list string → string;
  filepathJoin : list string → string;
  isManagedInstance : bool * bool;
  isManagedInstanceIncompatibleAWSSSMDocument : string → bool;
  removeDependencyOnInstanceMetadataForManagedInstance :
    SendCommandPayload → option SendCommandPayload;
  getPluginConfigurations :
    string → string → string → string → string → gmap string Configuration;
  initializeSendCommandState :
    gmap string Configuration → Message → SendCommandPayload → DocumentState;
  unmarshalCancelPayload : string → option CancelPayload;
  initializeCancelCommandState : Message → CancelPayload → DocumentState
}.

(** A parser returns a document, returns an error, or panics on a nil
    field of the message; [logged] are the errors it has logged. *)
Inductive ParseResult : Type :=
  | ParseOk (docState : DocumentState) (logged : list Event)
  | ParseErr (logged : list Event)
  | ParsePanic.

(** [parseSendCommandMessage].  The fields of the message are
    dereferenced where the source does: [MessageId] for the command
    id, [Payload] for the trace log and the parser, [Destination] for
    the S3 key prefix once the payload has parsed. *)
Definition parseSendCommandMessage (penv : ParserEnv) (msg : Message)
    (messagesOrchestrationRootDir : string) : ParseResult :=
  match MessageId msg with
  | None => ParsePanic
  | Some messageId =>
      let commandID := getCommandID penv messageId in
      match Payload msg with
      | None => ParsePanic
      | Some payload =>
          match ParseMessageWithParams penv payload with
          | None => ParseErr []
          | Some parsedMessage =>
              match MsgDestination msg with
              | None => ParsePanic
              | Some destination =>
                  let s3KeyPrefix :=
                    pathJoin penv [OutputS3KeyPrefix parsedMessage;
                                   PayloadCommandID parsedMessage; destination] in
                  let messageOrchestrationDirectory :=
                    filepathJoin penv [messagesOrchestrationRootDir; commandID] in
                  let isMI := (isManagedInstance penv).1 in
                  let logged :=
                    if (isManagedInstance penv).2
                    then [LogError "Error determining managed instance."]
                    else [] in
                  let finish (parsedMessage : SendCommandPayload) :=
                    let pluginConfigurations :=
                      getPluginConfigurations penv (RuntimeConfig parsedMessage)
                        messageOrchestrationDirectory (OutputS3BucketName parsedMessage)
                        s3KeyPrefix messageId in
                    ParseOk (initializeSendCommandState penv pluginConfigurations msg
                               parsedMessage) logged in
                  if isMI && isManagedInstanceIncompatibleAWSSSMDocument penv
                               (DocumentName parsedMessage)
                  then
                    match removeDependencyOnInstanceMetadataForManagedInstance penv
                            parsedMessage with
                    | None => ParseErr logged
                    | Some parsedMessage => finish parsedMessage
                    end
                  else finish parsedMessage
              end
          end
      end
  end.

(** [parseCancelCommandMessage]; it dereferences [Payload] only. *)
Definition parseCancelCommandMessage (penv : ParserEnv) (msg : Message)
    (messagesOrchestrationRootDir : string) : ParseResult :=
  match Payload msg with
  | None => ParsePanic
  | Some payload =>
      match unmarshalCancelPayload penv payload with
      | None => ParseErr []
      | Some parsedMessage => ParseOk (initializeCancelCommandState penv msg parsedMessage) []
      end
  end.

(** Sample parsers for a managed instance: the payload [{send}] is a
    document to rewrite, [{join}] one whose rewrite fails. *)
Definition sampleParserEnv : ParserEnv :=
  mkParserEnv (λ messageId, messageId)
    (λ payload,
       if decide (payload = "{send}")
       then Some (mkSendCommandPayload "m3" "AWS-RunShellScript" "{}" "bucket" "prefix")
       else if decide (payload = "{join}")
       then Some (mkSendCommandPayload "m7" "AWS-JoinDirectoryServiceDomain" "{}" "" "")
       else None)
    (String.concat "/") (String.concat "/")
    (true, true)
    (λ name, bool_decide (name = "AWS-JoinDirectoryServiceDomain"))
    (λ _, None)
    (λ _ _ _ _ _, ∅)
    (λ _ _ _, sampleSend)
    (λ payload, if decide (payload = "{cancel}")
                then Some (mkCancelPayload "aws.ssm.m1.i-1" "m1") else None)
    (λ _ _, sampleCancel).

(** ** The scanner's loops *)

Section Scanner.
Context (env : Env) (instanceID : string).

Lemma unit_run (m : M unit) (w : World) : m w = (tt, exec m w).
Proof. unfold exec. by destruct (m w) as [[] ?]. Qed.

Lemma pendingLoop_app (before rest : list string) (w : World) :
  pendingLoop env instanceID (before ++ rest) w = pendingLoop env instanceID before w ∨
  pendingLoop env instanceID (before ++ rest) w =
    pendingLoop env instanceID rest (exec (pendingLoop env instanceID before) w).
Proof.
  revert w. induction before as [|f before IH]; intros w.
  - right. reflexivity.
  - cbn [app pendingLoop]. unfold bind, UnmarshalFile, ask, exec.
    destruct (readDoc _ w) as [docState|]; [|by left].
    destruct (IsAssociation env docState); [by left|].
    destruct (submitDocForExecution env docState w) as [[] w1].
    apply (IH w1).
Qed.

Lemma currentLoop_app (before rest : list string) (w : World) :
  currentLoop env instanceID (before ++ rest) w = currentLoop env instanceID before w ∨
  currentLoop env instanceID (before ++ rest) w =
    currentLoop env instanceID rest (exec (currentLoop env instanceID before) w).
Proof.
  revert w. induction before as [|f before IH]; intros w.
  - right. reflexivity.
  - cbn [app currentLoop]. unfold bind, UnmarshalFile, ask, exec.
    destruct (readDoc _ w) as [docState|]; [|by left].
    destruct (IsAssociation env docState); [by left|].
    case_bool_decide; [by left|].
    destruct (resumeDocument env instanceID docState w) as [[] w1]; [by left|].
    apply (IH w1).
Qed.

(** The two passes of the recovery scanner. *)
Lemma passLoop_app (pass : Pass) (before rest : list string) (w : World) :
  passLoop env instanceID pass (before ++ rest) w = passLoop env instanceID pass before w ∨
  passLoop env instanceID pass (before ++ rest) w =
    passLoop env instanceID pass rest (exec (passLoop env instanceID pass before) w).
Proof. destruct pass; [apply pendingLoop_app | apply currentLoop_app]. Qed.

Lemma passLoop_stops_at (pass : Pass) (before : list string) (f : string)
    (after : list string) (w : World) :
  (∀ w1, w1 = exec (passLoop env instanceID pass before) w →
         passLoop env instanceID pass (f :: after) w1 = (tt, w1)) →
  passLoop env instanceID pass (before ++ f :: after) w =
    passLoop env instanceID pass before w.
Proof.
  intros Hstop. destruct (passLoop_app pass before (f :: after) w) as [->| ->]; [done|].
  rewrite (Hstop _ eq_refl). symmetry. apply unit_run.
Qed.
End Scanner.

(** C9.  When the pending pass, or the current pass, loads a document
    for which [IsAssociation()] holds, the pass stops at that file:
    scanning [before ++ f :: after] does what scanning [before] alone
    does, so neither the document of [f] nor any later file of the
    folder is submitted in that pass. *)
Theorem association_stops_the_pass (env : Env) (instanceID : string) (pass : Pass)
    (before : list string) (f : string) (after : list string) (w : World)
    (docState : DocumentState) :
  readDoc (instanceID, passFolder pass, f)
          (exec (passLoop env instanceID pass before) w) = Some docState →
  IsAssociation env docState = true →
  passLoop env instanceID pass (before ++ f :: after) w =
    passLoop env instanceID pass before w.
Proof.
  intros Hread Hassoc. apply passLoop_stops_at. intros w1 ->.
  destruct pass; cbn [passLoop pendingLoop currentLoop passFolder] in *;
    unfold bind, UnmarshalFile, ask; rewrite Hread, Hassoc; reflexivity.
Qed.

Lemma association_stops_the_pass_witness :
  readDoc ("i-1", passFolder PendingPass, "m0")
          (exec (passLoop okEnv "i-1" PendingPass []) associationWorld) = Some associationDoc ∧
  IsAssociation okEnv associationDoc = true ∧
  passLoop okEnv "i-1" PendingPass ([] ++ "m0" :: ["m3"]) associationWorld =
    passLoop okEnv "i-1" PendingPass [] associationWorld.
Proof.
  split; [reflexivity|]. split; [reflexivity|].
  apply (association_stops_the_pass okEnv "i-1" PendingPass [] "m0" ["m3"]
           associationWorld associationDoc); reflexivity.
Defined.

(** C1, amended.  When the current pass loads a document whose
    [RunCount] has reached [CommandRetryLimit], it does nothing for it
    (no increment, no persist, no submit, no reply) and stops:
    scanning [before ++ f :: after] does what scanning [before] alone
    does, so the files after [f] are not processed in this pass. *)
Theorem poisoned_stops_the_pass (env : Env) (instanceID : string)
    (before : list string) (f : string) (after : list string) (w : World)
    (docState : DocumentState) :
  readDoc (instanceID, DefaultLocationOfCurrent, f)
          (exec (currentLoop env instanceID before) w) = Some docState →
  RunCount (DocumentInformation docState) >= CommandRetryLimit env →
  currentLoop env instanceID (before ++ f :: after) w = currentLoop env instanceID before w.
Proof.
  intros Hread Hpoison. apply (passLoop_stops_at env instanceID CurrentPass).
  intros w1 ->. cbn [passLoop currentLoop]. unfold bind, UnmarshalFile, ask.
  rewrite Hread. destruct (IsAssociation env docState); [done|].
  by rewrite bool_decide_eq_true_2.
Qed.

Lemma poisoned_stops_the_pass_witness :
  readDoc ("i-1", DefaultLocationOfCurrent, "m1")
          (exec (currentLoop okEnv "i-1" []) poisonedWorld) = Some poisonedDoc ∧
  RunCount (DocumentInformation poisonedDoc) >= CommandRetryLimit okEnv ∧
  currentLoop okEnv "i-1" ([] ++ "m1" :: ["m2"]) poisonedWorld =
    currentLoop okEnv "i-1" [] poisonedWorld.
Proof.
  split; [reflexivity|]. split; [vm_compute; discriminate|].
  apply (poisoned_stops_the_pass okEnv "i-1" [] "m1" ["m2"] poisonedWorld poisonedDoc);
    [reflexivity|vm_compute; discriminate].
Defined.

(** C1 as stated fails: [m1] is poisoned and [m2], the file after it,
    is a document the scan would resume; the scan of [m1; m2] is not
    the scan of [m2], it leaves [m2] alone. *)
Lemma poisoned_scan_does_not_continue :
  ¬ poisonedSkippedAndScanContinues okEnv "i-1" "m1" ["m2"] poisonedWorld poisonedDoc.
Proof.
  intros H. unfold poisonedSkippedAndScanContinues in H.
  assert (Heq := H eq_refl eq_refl ltac:(vm_compute; discriminate)).
  apply (f_equal (λ r, length (trace r.2))) in Heq. vm_compute in Heq. discriminate.
Qed.

(** C5, amended.  A read or unmarshal error on a file of the pending
    folder, or of the current folder, is logged and ends the scan of
    that folder: the files after it are not processed in this pass. *)
Theorem unreadable_stops_the_pass (env : Env) (instanceID : string) (pass : Pass)
    (f : string) (rest : list string) (w : World) :
  readDoc (instanceID, passFolder pass, f) w = None →
  passLoop env instanceID pass (f :: rest) w =
    (tt, mkWorld (store w) (trace w ++ [LogError (passSkipMessage pass)])).
Proof.
  intros Hread.
  destruct pass; cbn [passLoop pendingLoop currentLoop passFolder] in *;
    unfold bind, UnmarshalFile, ask; rewrite Hread; reflexivity.
Qed.

Lemma unreadable_stops_the_pass_witness :
  readDoc ("i-1", passFolder PendingPass, "a") unreadableWorld = None ∧
  passLoop okEnv "i-1" PendingPass ("a" :: ["m3"]) unreadableWorld =
    (tt, mkWorld (store unreadableWorld)
                 (trace unreadableWorld ++ [LogError (passSkipMessage PendingPass)])).
Proof.
  split; [reflexivity|].
  apply (unreadable_stops_the_pass okEnv "i-1" PendingPass "a" ["m3"] unreadableWorld).
  reflexivity.
Defined.

(** C5 as stated fails: [a] cannot be read and [m3], the file after
    it, is a fresh send command; the scan of [a; m3] logs the error
    and does not go on to submit [m3]. *)
Lemma unreadable_scan_does_not_continue :
  ¬ unreadableSkippedAndScanContinues okEnv "i-1" PendingPass "a" ["m3"] unreadableWorld.
Proof.
  intros H. unfold unreadableSkippedAndScanContinues in H.
  assert (Heq := H eq_refl).
  apply (f_equal (λ r, length (trace r.2))) in Heq. vm_compute in Heq. discriminate.
Qed.

(** ** The [range] loops over plugin maps *)

Section Ranges.
Context (env : Env).

Lemma deref_dom {A} (f : PluginState → A) (c : Collected) :
  collectedOk c → dom (deref env f c) = dom (kept c).
Proof.
  intros Hok. unfold deref. destruct (loopVarPerIteration env).
  - apply dom_fmap_L.
  - destruct (rangeVar c) as [v|] eqn:Hvar.
    + apply dom_fmap_L.
    + rewrite (Hok Hvar). by rewrite !dom_empty_L.
Qed.

Lemma deref_lookup_fresh {A} (f : PluginState → A) (c : Collected) (k : string) :
  loopVarPerIteration env = true → deref env f c !! k = f <$> kept c !! k.
Proof. intros Hv. unfold deref. rewrite Hv. apply lookup_fmap. Qed.

Lemma deref_lookup_shared {A} (f : PluginState → A) (c : Collected) (k : string) (v : PluginState) :
  loopVarPerIteration env = false → rangeVar c = Some v →
  deref env f c !! k = (λ _, f v) <$> kept c !! k.
Proof. intros Hv Hr. unfold deref. rewrite Hv, Hr. apply lookup_fmap. Qed.

(** [loadPluginConfigurations]: whatever the order, a plugin that made
    it into the map has not executed. *)
Lemma loadPluginConfigurationsLoop_spec (plugins : gmap string PluginState)
    (order : list string) (configs : Collected) :
  collectedOk configs →
  let configs' := loadPluginConfigurationsLoop plugins order configs in
  collectedOk configs' ∧
  ∀ k p, kept configs' !! k = Some p →
         kept configs !! k = Some p ∨
         (k ∈ order ∧ plugins !! k = Some p ∧ HasExecuted p = false).
Proof.
  revert configs. induction order as [|pluginName rest IH]; intros configs Hok; cbn.
  - split; [done|]. intros k p Hk. by left.
  - destruct (plugins !! pluginName) as [pluginConfig|] eqn:Hlook.
    + destruct (HasExecuted pluginConfig) eqn:Hexec.
      * split; [intros Hnone; discriminate|]. intros k p Hk. by left.
      * destruct (IH (mkCollected (<[pluginName:=pluginConfig]> (kept configs))
                                  (Some pluginConfig))) as [Hok' Hkeys].
        { intros Hnone; discriminate. }
        split; [exact Hok'|]. intros k p Hk.
        destruct (Hkeys k p Hk) as [Hin|(Hin & Hp & He)].
        -- cbn in Hin. destruct (decide (pluginName = k)) as [->|Hne].
           ++ rewrite lookup_insert_eq in Hin. injection Hin as <-.
              right. split; [apply list_elem_of_here|done].
           ++ rewrite lookup_insert_ne in Hin by done. by left.
        -- right. split; [by apply list_elem_of_further|done].
    + destruct (IH configs Hok) as [Hok' Hkeys]. split; [exact Hok'|].
      intros k p Hk. destruct (Hkeys k p Hk) as [Hin|(Hin & Hp & He)]; [by left|].
      right. split; [by apply list_elem_of_further|done].
Qed.

Lemma loadPluginConfigurations_sound (plugins : gmap string PluginState) (k : string) :
  k ∈ dom (loadPluginConfigurations env plugins) →
  ∃ p, plugins !! k = Some p ∧ HasExecuted p = false.
Proof.
  unfold loadPluginConfigurations.
  destruct (loadPluginConfigurationsLoop_spec plugins
              (rangeOrder env RangeLoadConfigs (dom plugins)) (mkCollected ∅ None))
    as [Hok Hkeys]; [done|].
  rewrite deref_dom by exact Hok. intros [p Hp]%elem_of_dom.
  destruct (Hkeys k p Hp) as [Hin|(_ & Hlook & He)].
  - cbn in Hin. by rewrite lookup_empty in Hin.
  - by exists p.
Qed.

(** On a document none of whose plugins has executed, which is what the
    dispatcher submits, the loop never breaks and every plugin is in
    the map. *)
Lemma loadPluginConfigurationsLoop_fresh (plugins : gmap string PluginState)
    (order : list string) (configs : Collected) :
  (∀ k p, plugins !! k = Some p → HasExecuted p = false) →
  dom (kept (loadPluginConfigurationsLoop plugins order configs)) =
    dom (kept configs) ∪ (list_to_set order ∩ dom plugins).
Proof.
  intros Hfresh. revert configs. induction order as [|k rest IH]; intros configs; cbn.
  - by rewrite intersection_empty_l_L, union_empty_r_L.
  - apply set_eq. intros k'.
    destruct (plugins !! k) as [p|] eqn:Hk.
    + rewrite (Hfresh k p Hk), IH. cbn.
      rewrite dom_insert_L, !elem_of_union, !elem_of_intersection, elem_of_union,
        elem_of_singleton.
      split.
      * intros [[->|?]|[? ?]]; [right; split; [by left|apply elem_of_dom; eauto]
                               |by left|right; split; [by right|done]].
      * intros [?|[[->|?] ?]]; [left; by right|left; by left|right; by split].
    + rewrite IH, !elem_of_union, !elem_of_intersection, elem_of_union, elem_of_singleton.
      split.
      * intros [?|[? ?]]; [by left|right; split; [by right|done]].
      * intros [?|[[->|?] Hdom]]; [by left| |right; by split].
        apply elem_of_dom in Hdom as [? ?]. congruence.
Qed.

Lemma loadPluginConfigurations_fresh (plugins : gmap string PluginState) :
  rangeOrderOk env →
  (∀ k p, plugins !! k = Some p → HasExecuted p = false) →
  dom (loadPluginConfigurations env plugins) = dom plugins.
Proof.
  intros Hok Hfresh. unfold loadPluginConfigurations.
  destruct (loadPluginConfigurationsLoop_spec plugins
              (rangeOrder env RangeLoadConfigs (dom plugins)) (mkCollected ∅ None))
    as [Hcol _]; [done|].
  rewrite deref_dom by exact Hcol.
  rewrite loadPluginConfigurationsLoop_fresh by exact Hfresh. cbn.
  rewrite dom_empty_L. apply set_eq. intros k.
  rewrite elem_of_union, elem_of_intersection, elem_of_list_to_set.
  destruct (Hok RangeLoadConfigs (dom plugins)) as [_ Hcover]. rewrite Hcover.
  split; [intros [?%not_elem_of_empty|[? ?]]; done|intros ?; by right].
Qed.

(** The first loop of [runCmdsUsingCmdState] keeps, of the keys it
    visits, those whose plugin has not executed. *)
Lemma elem_of_notExecuted (plugins : gmap string PluginState) (k : string) :
  k ∈ dom (notExecuted plugins) ↔ ∃ v, plugins !! k = Some v ∧ HasExecuted v = false.
Proof.
  unfold notExecuted. rewrite elem_of_dom. split.
  - intros [v [Hv He]%map_lookup_filter_Some]. by exists v.
  - intros (v & Hv & He). exists v. by apply map_lookup_filter_Some.
Qed.

Lemma pendingPluginsStep_ok plugins acc k :
  collectedOk acc.1 → collectedOk (pendingPluginsStep plugins acc k).1.
Proof.
  intros Hok. unfold pendingPluginsStep. destruct (plugins !! k) as [v|]; [|done].
  destruct (HasExecuted v); intros Hnone; discriminate.
Qed.

Lemma pendingPluginsStep_same plugins acc k :
  kept (pendingPluginsStep plugins acc k).1 !! k = pendingEntry plugins k (kept acc.1 !! k).
Proof.
  unfold pendingPluginsStep, pendingEntry. destruct (plugins !! k) as [v|]; [|done].
  destruct (HasExecuted v); cbn; [done|]. apply lookup_insert_eq.
Qed.

Lemma pendingPluginsStep_other plugins acc k k' :
  k ≠ k' → kept (pendingPluginsStep plugins acc k).1 !! k' = kept acc.1 !! k'.
Proof.
  intros Hne. unfold pendingPluginsStep. destruct (plugins !! k) as [v|]; [|done].
  destruct (HasExecuted v); cbn; [done|]. by apply lookup_insert_ne.
Qed.

Lemma pendingPluginsStep_flag plugins acc k :
  (pendingPluginsStep plugins acc k).2 =
    acc.2 || bool_decide (k ∈ dom (notExecuted plugins)).
Proof.
  unfold pendingPluginsStep. destruct (plugins !! k) as [v|] eqn:Hv.
  - destruct (HasExecuted v) eqn:He; cbn.
    + rewrite bool_decide_eq_false_2; [by rewrite orb_false_r|].
      rewrite elem_of_notExecuted. intros (v' & Hv' & He'). congruence.
    + rewrite bool_decide_eq_true_2; [by rewrite orb_true_r|].
      apply elem_of_notExecuted. by exists v.
  - rewrite bool_decide_eq_false_2; [by rewrite orb_false_r|].
    rewrite elem_of_notExecuted. intros (v' & Hv' & He'). congruence.
Qed.

Lemma pendingEntry_idemp plugins k o :
  pendingEntry plugins k (pendingEntry plugins k o) = pendingEntry plugins k o.
Proof.
  unfold pendingEntry. destruct (plugins !! k) as [v|]; [|done]. by destruct (HasExecuted v).
Qed.

Lemma pendingPluginsLoop_from (plugins : gmap string PluginState) (order : list string)
    (acc : Collected * bool) :
  collectedOk acc.1 →
  let acc' := foldl (pendingPluginsStep plugins) acc order in
  collectedOk acc'.1 ∧
  (∀ k, kept acc'.1 !! k =
        if bool_decide (k ∈ order) then pendingEntry plugins k (kept acc.1 !! k)
        else kept acc.1 !! k) ∧
  acc'.2 = acc.2 || bool_decide (Exists (λ k, k ∈ dom (notExecuted plugins)) order).
Proof.
  revert acc. induction order as [|k0 rest IH]; intros acc Hok; cbn zeta.
  - cbn [foldl]. split; [done|]. split.
    + intros k. by rewrite bool_decide_eq_false_2 by apply not_elem_of_nil.
    + rewrite bool_decide_eq_false_2; [by rewrite orb_false_r|]. by intros ?%Exists_nil.
  - cbn [foldl].
    destruct (IH _ (pendingPluginsStep_ok plugins acc k0 Hok)) as (Hok' & Hkept & Hflag).
    split; [exact Hok'|]. split.
    + intros k. rewrite Hkept. destruct (decide (k0 = k)) as [<-|Hne].
      * rewrite (bool_decide_eq_true_2 (k0 ∈ k0 :: rest)) by apply list_elem_of_here.
        rewrite pendingPluginsStep_same, pendingEntry_idemp.
        by destruct (bool_decide (k0 ∈ rest)).
      * rewrite pendingPluginsStep_other by done.
        apply (f_equal (λ b : bool, if b then _ else _)), bool_decide_ext.
        split; [by apply list_elem_of_further | by intros [->|?]%elem_of_cons].
    + rewrite Hflag, pendingPluginsStep_flag, <- orb_assoc. f_equal.
      rewrite <- bool_decide_or. apply bool_decide_ext. by rewrite Exists_cons.
Qed.

(** With an admissible order the map handed to the plugin runner has
    exactly the plugins that have not executed, and [pendingPlugins]
    tells whether there is one. *)
Lemma pendingPluginsLoop_spec (plugins : gmap string PluginState) (order : list string) :
  (∀ k, k ∈ order ↔ k ∈ dom plugins) →
  let found := pendingPluginsLoop plugins order in
  collectedOk found.1 ∧
  kept found.1 = notExecuted plugins ∧
  found.2 = bool_decide (notExecuted plugins ≠ ∅).
Proof.
  intros Hcover. unfold pendingPluginsLoop.
  destruct (pendingPluginsLoop_from plugins order (mkCollected ∅ None, false))
    as (Hok & Hkept & Hflag); [done|].
  split; [exact Hok|]. split.
  - apply map_eq. intros k. rewrite Hkept. cbn. rewrite lookup_empty.
    unfold pendingEntry, notExecuted.
    destruct (plugins !! k) as [v|] eqn:Hv.
    + rewrite bool_decide_eq_true_2 by (apply Hcover, elem_of_dom; eauto).
      destruct (HasExecuted v) eqn:He; symmetry.
      * apply map_lookup_filter_None. right. intros v' Hv'. cbn. congruence.
      * by apply map_lookup_filter_Some.
    + replace (if bool_decide (k ∈ order) then None else None)
        with (@None PluginState) by by destruct (bool_decide (k ∈ order)).
      symmetry. apply map_lookup_filter_None. by left.
  - rewrite Hflag. cbn. apply bool_decide_ext. rewrite Exists_exists. split.
    + intros (k & _ & Hk) Hempty. rewrite Hempty in Hk. set_solver.
    + intros Hne. apply map_choose in Hne as (k & v & Hkv).
      exists k. split.
      * apply Hcover, elem_of_dom. apply map_lookup_filter_Some in Hkv as [Hk _]. eauto.
      * apply elem_of_dom. eauto.
Qed.

(** [isUpdate] tells whether the agent-update plugin is a key of the
    map it ranges over. *)
Lemma isUpdateLoop_from (order : list string) (b : bool) :
  foldl (λ (isUpdate : bool) pluginName,
           if decide (pluginName = PluginNameAwsAgentUpdate env) then true else isUpdate)
        b order
  = b || bool_decide (PluginNameAwsAgentUpdate env ∈ order).
Proof.
  revert b. induction order as [|k rest IH]; intros b; cbn [foldl].
  - rewrite bool_decide_eq_false_2 by apply not_elem_of_nil. by rewrite orb_false_r.
  - rewrite IH. destruct (decide (k = PluginNameAwsAgentUpdate env)) as [->|Hne].
    + rewrite (bool_decide_eq_true_2 (_ ∈ _ :: rest)) by apply list_elem_of_here.
      by rewrite orb_true_r.
    + f_equal. apply bool_decide_ext.
      split; [by apply list_elem_of_further | by intros [?|?]%elem_of_cons].
Qed.

Lemma isUpdate_spec (pluginConfigurations : gmap string Configuration) :
  rangeOrderOk env →
  isUpdate env pluginConfigurations =
    bool_decide (PluginNameAwsAgentUpdate env ∈ dom pluginConfigurations).
Proof.
  intros Hok. unfold isUpdate, isUpdateLoop. rewrite isUpdateLoop_from. cbn.
  apply bool_decide_ext, Hok.
Qed.
End Ranges.

(** ** The send-command executors *)

Section Executors.
Context (env : Env).

Lemma finishDocument_reboot documentInfo pluginConfigurations outputs
    replyID commandID destination deleteID w :
  DocumentStatus documentInfo = ResultStatusSuccessAndReboot →
  finishDocument env documentInfo pluginConfigurations outputs
    replyID commandID destination deleteID w = (tt, w).
Proof. intros Hs. unfold finishDocument. by rewrite decide_True. Qed.

Lemma finishDocument_complete documentInfo pluginConfigurations outputs
    replyID commandID destination deleteID w :
  DocumentStatus documentInfo ≠ ResultStatusSuccessAndReboot →
  let w2 := exec (finishDocument env documentInfo pluginConfigurations outputs
                    replyID commandID destination deleteID) w in
  ∃ err,
    trace w2 = trace w ++
      [SendResponseCall replyID "" outputs;
       MoveCommandStateCall commandID destination
         DefaultLocationOfCurrent DefaultLocationOfCompleted]
      ++ (if isUpdate env pluginConfigurations then []
          else DeleteMessageCall deleteID :: handled err) ∧
    store w2 = moveFile (destination, DefaultLocationOfCurrent, commandID)
                        (destination, DefaultLocationOfCompleted, commandID) (store w).
Proof.
  intros Hs. unfold finishDocument. rewrite decide_False by done.
  unfold exec, bind, emit, MoveCommandState, DeleteMessage, ask, ret. cbn.
  destruct (isUpdate env pluginConfigurations); cbn.
  - exists false. by rewrite <- !app_assoc.
  - match goal with |- context [DeleteMessageErr env deleteID ?w'] =>
      exists (DeleteMessageErr env deleteID w'); destruct (DeleteMessageErr env deleteID w')
    end; cbn; by rewrite <- !app_assoc.
Qed.

Lemma PersistDocumentInfo_only documentInfo commandID destination w1 :
  onlyDocumentInfoPersisted w1
    (exec (PersistDocumentInfo documentInfo commandID destination DefaultLocationOfCurrent) w1)
    documentInfo commandID destination.
Proof.
  unfold onlyDocumentInfoPersisted, exec, PersistDocumentInfo, readDoc, recordAt. cbn.
  split; [done|]. split.
  - by rewrite lookup_insert_eq.
  - intros p Hp. by rewrite lookup_insert_ne.
Qed.
End Executors.

(** C3.  A send-command document whose persisted [DocumentStatus] is
    [SuccessAndReboot] stays where it is.  For [processSendCommandMessage]
    and for [runCmdsUsingCmdState] alike: once the plugin runner has
    returned (world [w1]) and the status that the executor persists is
    [SuccessAndReboot], the executor makes one more call, the
    [PersistDocumentInfo] itself, and returns.  There is no
    document-level [sendResponse], no [MoveCommandState] and no
    [DeleteMessage]; the record is in [current] with the persisted
    document info, and no other file of the store has changed. *)
Theorem reboot_leaves_document_in_current (env : Env) (docState : DocumentState) (w : World) :
  let info := DocumentInformation docState in
  let here := (Destination info, DefaultLocationOfCurrent, CommandID info) in
  (let ran := callRunPlugins env (MessageID info)
                (loadPluginConfigurations env (PluginsInformation docState)) w in
   let documentInfo := setReplyFields (buildReply env "" ran.1)
                         (DocumentInformation (recordAt here ran.2)) in
   DocumentStatus documentInfo = ResultStatusSuccessAndReboot →
   onlyDocumentInfoPersisted ran.2 (exec (processSendCommandMessage env docState) w)
     documentInfo (CommandID info) (Destination info))
  ∧
  (let w1 := exec (runPendingPlugins env docState) w in
   let documentInfo := setReplyFields
                         (buildReply env "" (cmdStateOutputs env (recordAt here w1)))
                         zeroDocumentInfo in
   DocumentStatus documentInfo = ResultStatusSuccessAndReboot →
   onlyDocumentInfoPersisted w1 (exec (runCmdsUsingCmdState env docState) w)
     documentInfo (CommandID info) (Destination info)).
Proof.
  cbn zeta. split.
  - intros Hstatus. unfold processSendCommandMessage, exec, bind at 1.
    destruct (callRunPlugins env _ _ w) as [outputs w1] eqn:Hran. cbn [fst snd] in *.
    unfold bind, GetDocumentInfo, ask. fold (recordAt (Destination (DocumentInformation docState),
      DefaultLocationOfCurrent, CommandID (DocumentInformation docState)) w1).
    pose proof (PersistDocumentInfo_only
                  (setReplyFields (buildReply env "" outputs)
                     (DocumentInformation
                        (recordAt (Destination (DocumentInformation docState),
                                   DefaultLocationOfCurrent,
                                   CommandID (DocumentInformation docState)) w1)))
                  (CommandID (DocumentInformation docState))
                  (Destination (DocumentInformation docState)) w1) as Honly.
    unfold exec in Honly.
    destruct (PersistDocumentInfo _ _ _ _ w1) as [[] w2].
    by rewrite finishDocument_reboot.
  - unfold exec. intros Hstatus. unfold runCmdsUsingCmdState, bind at 1.
    destruct (runPendingPlugins env docState w) as [[] w1] eqn:Hran. cbn [fst snd] in *.
    unfold bind, GetCommandInterimState, ask. fold (recordAt (Destination (DocumentInformation docState),
      DefaultLocationOfCurrent, CommandID (DocumentInformation docState)) w1).
    pose proof (PersistDocumentInfo_only
                  (setReplyFields
                     (buildReply env ""
                        (cmdStateOutputs env
                           (recordAt (Destination (DocumentInformation docState),
                                      DefaultLocationOfCurrent,
                                      CommandID (DocumentInformation docState)) w1)))
                     zeroDocumentInfo)
                  (CommandID (DocumentInformation docState))
                  (Destination (DocumentInformation docState)) w1) as Honly.
    unfold exec in Honly.
    destruct (PersistDocumentInfo _ _ _ _ w1) as [[] w2].
    by rewrite finishDocument_reboot.
Qed.

Lemma reboot_leaves_document_in_current_witness :
  (let ran := callRunPlugins rebootEnv "aws.ssm.m3.i-1"
                (loadPluginConfigurations rebootEnv (PluginsInformation freshDoc)) freshWorld in
   let documentInfo := setReplyFields (buildReply rebootEnv "" ran.1)
                         (DocumentInformation (recordAt ("i-1", "current", "m3") ran.2)) in
   DocumentStatus documentInfo = ResultStatusSuccessAndReboot ∧
   onlyDocumentInfoPersisted ran.2 (exec (processSendCommandMessage rebootEnv freshDoc) freshWorld)
     documentInfo "m3" "i-1")
  ∧
  (let w1 := exec (runPendingPlugins okEnv rebootedDoc) rebootedWorld in
   let documentInfo := setReplyFields
                         (buildReply okEnv "" (cmdStateOutputs okEnv
                                                 (recordAt ("i-1", "current", "m5") w1)))
                         zeroDocumentInfo in
   DocumentStatus documentInfo = ResultStatusSuccessAndReboot ∧
   onlyDocumentInfoPersisted w1 (exec (runCmdsUsingCmdState okEnv rebootedDoc) rebootedWorld)
     documentInfo "m5" "i-1").
Proof.
  split; cbn zeta.
  - split; [vm_compute; reflexivity|].
    apply (proj1 (reboot_leaves_document_in_current rebootEnv freshDoc freshWorld)).
    vm_compute. reflexivity.
  - split; [vm_compute; reflexivity|].
    apply (proj2 (reboot_leaves_document_in_current okEnv rebootedDoc rebootedWorld)).
    vm_compute. reflexivity.
Defined.

Lemma completionCalls_counts documentInfo outputs persistCommandID persistDestination
    replyID commandID destination deleteID updating err :
  let calls := completionCalls documentInfo outputs persistCommandID persistDestination
                 replyID commandID destination deleteID updating err in
  countEvents isDocumentReply calls = 1%nat ∧
  countEvents isMove calls = 1%nat ∧
  countEvents isDeleteMessage calls = (if updating then 0%nat else 1%nat).
Proof. by destruct updating, err. Qed.

Lemma pendingConfigurations_dom (env : Env) (command : DocumentState) :
  rangeOrderOk env →
  dom (pendingConfigurations env command).1 = dom (notExecuted (PluginsInformation command)).
Proof.
  intros Hok. unfold pendingConfigurations. cbn [fst].
  destruct (pendingPluginsLoop_spec (PluginsInformation command)
              (rangeOrder env RangePendingPlugins (dom (PluginsInformation command))))
    as (Hcol & Hkept & _); [apply Hok|].
  rewrite deref_dom by exact Hcol. by rewrite Hkept.
Qed.

(** C4, amended.  For a document that does not ask for a reboot, an
    executor sends the document-level reply, moves the record from
    [current] to [completed] and then calls [DeleteMessage] once,
    unless the agent-update plugin is among the plugin configurations
    the executor computed for the plugin runner, in which case it does
    not call [DeleteMessage].  In [runCmdsUsingCmdState] those are the
    plugins that have not executed yet; an agent-update plugin that
    has executed does not hold the deletion back. *)
Theorem delete_unless_update_to_run (env : Env) (docState : DocumentState) (w : World) :
  rangeOrderOk env →
  let info := DocumentInformation docState in
  let here := (Destination info, DefaultLocationOfCurrent, CommandID info) in
  (let configs := loadPluginConfigurations env (PluginsInformation docState) in
   let ran := callRunPlugins env (MessageID info) configs w in
   let documentInfo := setReplyFields (buildReply env "" ran.1)
                         (DocumentInformation (recordAt here ran.2)) in
   DocumentStatus documentInfo ≠ ResultStatusSuccessAndReboot →
   ∃ err,
     let updating := bool_decide (PluginNameAwsAgentUpdate env ∈ dom configs) in
     let calls := completionCalls documentInfo ran.1 (CommandID info) (Destination info)
                    (MessageID info) (CommandID info) (Destination info) (MessageID info)
                    updating err in
     trace (exec (processSendCommandMessage env docState) w) = trace ran.2 ++ calls ∧
     countEvents isDocumentReply calls = 1%nat ∧
     countEvents isMove calls = 1%nat ∧
     countEvents isDeleteMessage calls = (if updating then 0%nat else 1%nat))
  ∧
  (let w1 := exec (runPendingPlugins env docState) w in
   let newInfo := DocumentInformation (recordAt here w1) in
   let outputs := cmdStateOutputs env (recordAt here w1) in
   let documentInfo := setReplyFields (buildReply env "" outputs) zeroDocumentInfo in
   DocumentStatus documentInfo ≠ ResultStatusSuccessAndReboot →
   ∃ err,
     let updating := bool_decide (PluginNameAwsAgentUpdate env ∈
                                  dom (notExecuted (PluginsInformation docState))) in
     let calls := completionCalls documentInfo outputs (CommandID info) (Destination info)
                    (MessageID info) (CommandID newInfo) (Destination newInfo)
                    (MessageID newInfo) updating err in
     trace (exec (runCmdsUsingCmdState env docState) w) = trace w1 ++ calls ∧
     countEvents isDocumentReply calls = 1%nat ∧
     countEvents isMove calls = 1%nat ∧
     countEvents isDeleteMessage calls = (if updating then 0%nat else 1%nat)).
Proof.
  intros Hok. cbn zeta. split.
  - unfold exec. intros Hstatus. unfold processSendCommandMessage, bind at 1.
    destruct (callRunPlugins env _ _ w) as [outputs w1] eqn:Hran. cbn [fst snd] in *.
    unfold bind, GetDocumentInfo, ask.
    fold (recordAt (Destination (DocumentInformation docState),
                    DefaultLocationOfCurrent, CommandID (DocumentInformation docState)) w1).
    unfold PersistDocumentInfo at 1.
    match goal with |- context [finishDocument env ?i ?c ?o ?r ?cm ?d ?dl ?w'] =>
      destruct (finishDocument_complete env i c o r cm d dl w' Hstatus) as (err & Htrace & _)
    end.
    exists err. unfold exec in Htrace. rewrite Htrace. cbn [trace].
    rewrite isUpdate_spec by exact Hok. split.
    + unfold completionCalls. by rewrite <- !app_assoc.
    + apply completionCalls_counts.
  - unfold exec. intros Hstatus. unfold runCmdsUsingCmdState, bind at 1.
    destruct (runPendingPlugins env docState w) as [[] w1] eqn:Hran. cbn [fst snd] in *.
    unfold bind, GetCommandInterimState, ask.
    fold (recordAt (Destination (DocumentInformation docState),
                    DefaultLocationOfCurrent, CommandID (DocumentInformation docState)) w1).
    unfold PersistDocumentInfo at 1.
    match goal with |- context [finishDocument env ?i ?c ?o ?r ?cm ?d ?dl ?w'] =>
      destruct (finishDocument_complete env i c o r cm d dl w' Hstatus) as (err & Htrace & _)
    end.
    exists err. unfold exec in Htrace. rewrite Htrace. cbn [trace].
    rewrite isUpdate_spec, pendingConfigurations_dom by exact Hok. split.
    + unfold completionCalls. by rewrite <- !app_assoc.
    + apply completionCalls_counts.
Qed.

(** C4 as stated fails: [updatedDoc] has an agent-update plugin, which
    has executed; [runCmdsUsingCmdState] calls [DeleteMessage] for it. *)
Lemma executed_update_plugin_is_deleted :
  ¬ deletesUnlessUpdatePlugin okEnv runCmdsUsingCmdState updatedDoc updatedWorld.
Proof. unfold deletesUnlessUpdatePlugin. vm_compute. discriminate. Qed.

Lemma okEnv_rangeOrderOk : rangeOrderOk okEnv.
Proof.
  intros site ks. split; [apply NoDup_elements|]. intros k. apply elem_of_elements.
Qed.

Lemma delete_unless_update_to_run_witness :
  rangeOrderOk okEnv ∧
  (let configs := loadPluginConfigurations okEnv (PluginsInformation freshDoc) in
   let ran := callRunPlugins okEnv "aws.ssm.m3.i-1" configs freshWorld in
   let documentInfo := setReplyFields (buildReply okEnv "" ran.1)
                         (DocumentInformation (recordAt ("i-1", "current", "m3") ran.2)) in
   DocumentStatus documentInfo ≠ ResultStatusSuccessAndReboot ∧
   ∃ err,
     let calls := completionCalls documentInfo ran.1 "m3" "i-1" "aws.ssm.m3.i-1"
                    "m3" "i-1" "aws.ssm.m3.i-1" false err in
     trace (exec (processSendCommandMessage okEnv freshDoc) freshWorld) = trace ran.2 ++ calls ∧
     countEvents isDocumentReply calls = 1%nat ∧
     countEvents isMove calls = 1%nat ∧
     countEvents isDeleteMessage calls = 1%nat)
  ∧
  (let w1 := exec (runPendingPlugins okEnv updatedDoc) updatedWorld in
   let outputs := cmdStateOutputs okEnv (recordAt ("i-1", "current", "m4") w1) in
   let documentInfo := setReplyFields (buildReply okEnv "" outputs) zeroDocumentInfo in
   DocumentStatus documentInfo ≠ ResultStatusSuccessAndReboot ∧
   ∃ err,
     let calls := completionCalls documentInfo outputs "m4" "i-1" "aws.ssm.m4.i-1"
                    "m4" "i-1" "aws.ssm.m4.i-1" false err in
     trace (exec (runCmdsUsingCmdState okEnv updatedDoc) updatedWorld) = trace w1 ++ calls ∧
     countEvents isDocumentReply calls = 1%nat ∧
     countEvents isMove calls = 1%nat ∧
     countEvents isDeleteMessage calls = 1%nat).
Proof.
  split; [exact okEnv_rangeOrderOk|]. split; cbn zeta.
  - split; [vm_compute; discriminate|].
    apply (proj1 (delete_unless_update_to_run okEnv freshDoc freshWorld okEnv_rangeOrderOk)).
    vm_compute. discriminate.
  - split; [vm_compute; discriminate|].
    apply (proj2 (delete_unless_update_to_run okEnv updatedDoc updatedWorld okEnv_rangeOrderOk)).
    vm_compute. discriminate.
Defined.

(** ** The cancel-command executor *)

Lemma processCancelCommandMessage_run (env : Env) (docState : DocumentState) (w : World) :
  let info := DocumentInformation docState in
  let cur := (Destination info, DefaultLocationOfCurrent, CommandID info) in
  let done := (Destination info, DefaultLocationOfCompleted, CommandID info) in
  let docState' := markedCancel (CancelFound env (CancelMessageID (CancelInformation docState)) w)
                     docState in
  ∃ err,
    processCancelCommandMessage env docState w =
      (docState',
       mkWorld (<[done := FileDoc docState']> (delete cur (<[cur := FileDoc docState']> (store w))))
               (trace w ++
                  [CancelCall sendCommandPool (CancelMessageID (CancelInformation docState));
                   PersistDataCall (CommandID info) (Destination info)
                     DefaultLocationOfCurrent docState';
                   MoveCommandStateCall (CommandID info) (Destination info)
                     DefaultLocationOfCurrent DefaultLocationOfCompleted;
                   DeleteMessageCall (MessageID info)] ++ handled err)).
Proof.
  cbn zeta. unfold processCancelCommandMessage, bind, Cancel.
  destruct (CancelFound env _ w) eqn:Hfound; cbn [negb].
  1: match goal with |- context [PersistData _ _ _ ?d] =>
       change d with (markedCancel true docState) end.
  2: match goal with |- context [PersistData _ _ _ ?d] =>
       change d with (markedCancel false docState) end.
  all: unfold PersistData, MoveCommandState, DeleteMessage, bind, ask, emit, ret, moveFile;
         cbn [store trace fst snd].
  all: rewrite lookup_insert_eq.
  all: match goal with |- context [DeleteMessageErr ?e ?i ?w1] =>
         exists (DeleteMessageErr e i w1); destruct (DeleteMessageErr e i w1) end.
  all: cbn [handled store trace]; by rewrite <- !app_assoc.
Qed.

(** C6.  The cancel executor asks the send-command pool to cancel the
    target job.  The document ends with status [Success] and debug
    info "Command <id> cancelled" exactly when the job was found, and
    with status [Failed] and "Command <id> couldn't be cancelled"
    exactly when it was not.  Either way the executor then persists
    the document to [current], moves it to [completed] and calls
    [DeleteMessage] for the cancel message, in this order; the record
    ends up in [completed] and not in [current]. *)
Theorem cancel_reports_whether_job_was_found (env : Env) (docState : DocumentState) (w : World) :
  let cancel := CancelInformation docState in
  let info := DocumentInformation docState in
  let found := CancelFound env (CancelMessageID cancel) w in
  let docState' := (processCancelCommandMessage env docState w).1 in
  let w' := (processCancelCommandMessage env docState w).2 in
  (DocumentStatus (DocumentInformation docState') = ResultStatusSuccess ∧
   DebugInfo (CancelInformation docState') =
     ("Command " ++ CancelCommandID cancel ++ " cancelled")%string
   ↔ found = true) ∧
  (DocumentStatus (DocumentInformation docState') = ResultStatusFailed ∧
   DebugInfo (CancelInformation docState') =
     ("Command " ++ CancelCommandID cancel ++ " couldn't be cancelled")%string
   ↔ found = false) ∧
  (∃ err,
     trace w' = trace w ++
       [CancelCall sendCommandPool (CancelMessageID cancel);
        PersistDataCall (CommandID info) (Destination info) DefaultLocationOfCurrent docState';
        MoveCommandStateCall (CommandID info) (Destination info)
          DefaultLocationOfCurrent DefaultLocationOfCompleted;
        DeleteMessageCall (MessageID info)] ++ handled err) ∧
  readDoc (Destination info, DefaultLocationOfCompleted, CommandID info) w' = Some docState' ∧
  store w' !! (Destination info, DefaultLocationOfCurrent, CommandID info) = None.
Proof.
  cbn zeta. destruct (processCancelCommandMessage_run env docState w) as [err ->].
  cbn [fst snd store trace]. unfold readDoc. cbn [store].
  rewrite lookup_insert_eq, lookup_insert_ne by (intros [=]). rewrite lookup_delete_eq.
  split; [|split; [|split; [|done]]].
  - destruct (CancelFound env _ w); cbn; split; [done|by intros _|intros [[=] _]|done].
  - destruct (CancelFound env _ w); cbn; split; [intros [[=] _]|done|done|by intros _].
  - by exists err.
Qed.

(** ** [submitDocForExecution] *)

(** C10.  [submitDocForExecution] moves the record from [pending] to
    [current] before it looks at the document type: the move is the
    first call it makes, for every document.  A document that is
    neither a send command nor a cancel command is moved all the same;
    an error is logged for it, no job is submitted to a pool, and the
    record is left in [current]. *)
Theorem submit_moves_before_dispatch (env : Env) (docState : DocumentState) (w : World) :
  let info := DocumentInformation docState in
  let src := (Destination info, DefaultLocationOfPending, CommandID info) in
  let dst := (Destination info, DefaultLocationOfCurrent, CommandID info) in
  let w' := exec (submitDocForExecution env docState) w in
  store w' = moveFile src dst (store w) ∧
  (∃ rest,
     trace w' = trace w ++
       MoveCommandStateCall (CommandID info) (Destination info)
         DefaultLocationOfPending DefaultLocationOfCurrent :: rest ∧
     match DocType docState with
     | SendCommand =>
         ∃ err : bool,
           rest = SubmitCall sendCommandPool (MessageID info)
                    (JobProcessSendCommandMessage docState)
                  :: (if err then [LogError "SendCommand failed"] else [])
     | CancelCommand =>
         ∃ err : bool,
           rest = SubmitCall cancelCommandPool (MessageID info)
                    (JobProcessCancelCommandMessage docState)
                  :: (if err then [LogError "CancelCommand failed"] else [])
     | DocumentTypeOther _ =>
         rest = [LogError "unexpected document type "] ∧
         countEvents isSubmit rest = 0%nat
     end) ∧
  match store w !! src with
  | Some file => store w' !! dst = Some file ∧ store w' !! src = None
  | None => store w' = store w
  end.
Proof.
  cbn zeta.
  assert (Hstore : store (exec (submitDocForExecution env docState) w) =
                   moveFile (Destination (DocumentInformation docState),
                             DefaultLocationOfPending, CommandID (DocumentInformation docState))
                            (Destination (DocumentInformation docState),
                             DefaultLocationOfCurrent, CommandID (DocumentInformation docState))
                            (store w)).
  { unfold submitDocForExecution, exec, bind, MoveCommandState, Submit, emit, ret.
    destruct (DocType docState); cbn; [| |done].
    all: by match goal with |- context [SubmitErr ?e ?p ?i ?w1] =>
              destruct (SubmitErr e p i w1) end. }
  split; [exact Hstore|]. split.
  - unfold submitDocForExecution, exec, bind, MoveCommandState, Submit, emit, ret.
    destruct (DocType docState); cbn.
    + match goal with |- context [SubmitErr env ?p ?i ?w1] =>
        destruct (SubmitErr env p i w1) eqn:Herr end; cbn;
        eexists; (split; [by rewrite <- !app_assoc|]); [by exists true|by exists false].
    + match goal with |- context [SubmitErr env ?p ?i ?w1] =>
        destruct (SubmitErr env p i w1) eqn:Herr end; cbn;
        eexists; (split; [by rewrite <- !app_assoc|]); [by exists true|by exists false].
    + eexists. split; [by rewrite <- !app_assoc|]. done.
  - rewrite Hstore. unfold moveFile.
    destruct (store w !! _) as [file|] eqn:Hsrc; [|done].
    split; [apply lookup_insert_eq|].
    rewrite lookup_insert_ne by (intros [=]). apply lookup_delete_eq.
Qed.

(** ** The ingress dispatcher *)

Section Dispatcher.
Context (env : Env).

Lemma validate_true (msg : Message) :
  validate msg = true ↔
  is_Some (MessageId msg) ∧ is_Some (Topic msg) ∧
  is_Some (Payload msg) ∧ is_Some (MsgDestination msg).
Proof.
  unfold validate. rewrite !andb_true_iff, !bool_decide_eq_true. tauto.
Qed.

(** A message whose [MessageId] is set is either ignored, rejected or
    accepted. *)
Lemma processMessage_with_id (msg : Message) (messageId : string) (w : World) :
  MessageId msg = Some messageId →
  processMessage env msg w =
    Returned (if validate msg
              then match routed env msg with
                   | None => exec (rejectMessage env messageId) w
                   | Some docState => exec (acceptMessage env messageId docState) w
                   end
              else exec (emit (LogError "message not valid, ignoring: ")) w).
Proof.
  intros Hid. unfold processMessage, routed. rewrite Hid.
  destruct (validate msg) eqn:Hvalid; cbn [negb]; [|done].
  apply validate_true in Hvalid as (_ & [topic Htopic] & _). rewrite Htopic.
  by repeat case_match.
Qed.

Lemma rejectMessage_run (messageId : string) (w : World) :
  ∃ err,
    exec (rejectMessage env messageId) w =
      mkWorld (store w)
              (trace w ++ [LogError "format of received message is invalid ";
                           FailMessageCall messageId InternalHandlerException]
                       ++ handled err).
Proof.
  unfold rejectMessage, exec, bind, emit, ask, ret. cbn.
  exists (FailMessageErr env messageId
            (mkWorld (store w)
                     (trace w ++ [LogError "format of received message is invalid "]))).
  destruct (FailMessageErr env messageId _); cbn; by rewrite <- !app_assoc.
Qed.

(** An accepted message is persisted and acknowledged first, and is
    never failed. *)
Lemma acceptMessage_run (messageId : string) (docState : DocumentState) (w : World) :
  ∃ calls,
    trace (exec (acceptMessage env messageId docState) w) =
      trace w ++
        PersistDataCall (CommandID (DocumentInformation docState))
          (Destination (DocumentInformation docState)) DefaultLocationOfPending docState
        :: AcknowledgeMessageCall messageId :: calls ∧
    countEvents isFailMessage calls = 0%nat.
Proof.
  unfold acceptMessage, exec, bind, persistData, PersistData, emit, ask, ret. cbn.
  destruct (AcknowledgeMessageErr env messageId _); cbn.
  - eexists. split; [by rewrite <- !app_assoc|done].
  - unfold submitDocForExecution, bind, MoveCommandState, Submit, emit, ret.
    destruct (DocType docState); cbn.
    1,2: match goal with |- context [SubmitErr ?e ?p ?i ?w1] =>
           destruct (SubmitErr e p i w1) end; cbn.
    all: eexists; split; [by rewrite <- !app_assoc|done].
Qed.
End Dispatcher.

Lemma countEvents_cons (p : Event → bool) (e : Event) (t : list Event) :
  countEvents p (e :: t) = ((if p e then 1 else 0) + countEvents p t)%nat.
Proof. unfold countEvents. cbn. by destruct (p e). Qed.

(** What of C8 holds for a message whose [MessageId] is set: the
    dispatcher returns; [FailMessage] with [InternalHandlerException]
    is called, once, exactly when the message is structurally valid
    and its topic has neither prefix or its parser fails; and a message
    that is invalid or rejected leaves the state store as it was, is
    not acknowledged and submits nothing. *)
Lemma processMessage_failures (env : Env) (msg : Message) (messageId : string) (w : World) :
  MessageId msg = Some messageId →
  ∃ w' calls,
    processMessage env msg w = Returned w' ∧
    trace w' = trace w ++ calls ∧
    (countEvents isFailMessage calls = 1%nat ↔ validate msg = true ∧ routed env msg = None) ∧
    (countEvents isFailMessage calls = 0%nat ↔ ¬ (validate msg = true ∧ routed env msg = None)) ∧
    (validate msg = false → calls = [LogError "message not valid, ignoring: "]) ∧
    (validate msg = false ∨ routed env msg = None →
     store w' = store w ∧ countEvents isPersist calls = 0%nat ∧
     countEvents isAcknowledge calls = 0%nat ∧ countEvents isSubmit calls = 0%nat).
Proof.
  intros Hid. rewrite (processMessage_with_id env msg messageId w Hid).
  destruct (validate msg) eqn:Hvalid.
  - destruct (routed env msg) as [docState|] eqn:Hrouted.
    + destruct (acceptMessage_run env messageId docState w) as (calls & Htrace & Hnone).
      eexists _, _. split; [done|]. split; [exact Htrace|].
      rewrite !countEvents_cons, Hnone. cbn [isFailMessage Nat.add].
      split; [|split; [|split]].
      * split; [intros [=]|intros [_ [=]]].
      * split; [intros _ [_ [=]]|done].
      * intros [=].
      * intros [[=]|[=]].
    + destruct (rejectMessage_run env messageId w) as (err & ->).
      eexists _, _. split; [done|]. split; [done|].
      destruct err; cbn; (split; [|split; [|split]]).
      all: try (split; [done|by intros []]).
      all: try (intros [=]).
      all: try (by intros _).
      all: by split; [intros [=]|intros _ ?].
  - eexists _, _. split; [done|]. split; [done|].
    cbn. split; [|split; [|split]].
    + split; [intros [=]|intros [[=] _]].
    + split; [intros _ [[=] _]|done].
    + done.
    + done.
Qed.

(** C8 at the failing input: a message without [MessageId] makes the
    dispatcher panic in its first statement, which dereferences
    [msg.MessageId] to build the logging context; the validation that
    would have ignored the message is never reached. *)
Theorem nil_message_id_panics (env : Env) (topic payload destination : option string)
    (w : World) :
  validate (mkMessage None topic payload destination) = false ∧
  processMessage env (mkMessage None topic payload destination) w = Panicked w.
Proof. split; reflexivity. Qed.

(** ** [loadPluginConfigurations] *)

(** C2 at the failing input: plugin [A] has executed and plugin [B] has
    not, and the [range] visits [A] first.  The loop breaks at [A], the
    map handed to the plugin runner is empty, and [B] is left out. *)
Theorem executed_plugin_hides_later_plugins :
  let plugins := PluginsInformation resumableDoc in
  rangeOrder okEnv RangeLoadConfigs (dom plugins) = ["A"; "B"] ∧
  (HasExecuted <$> plugins !! "A") = Some true ∧
  (HasExecuted <$> plugins !! "B") = Some false ∧
  loadPluginConfigurations okEnv plugins = ∅ ∧
  head (added (processSendCommandMessage okEnv resumableDoc) resumableWorld) =
    Some (RunPluginsCall "aws.ssm.m2.i-1" ∅).
Proof. repeat split; vm_compute; reflexivity. Qed.

(** ** Resuming after a reboot *)

Lemma rebooted_true (plugin : PluginState) :
  rebooted plugin = true ↔
  HasExecuted plugin = true ∧ Status (Result plugin) = ResultStatusSuccessAndReboot.
Proof. unfold rebooted. by rewrite andb_true_iff, bool_decide_eq_true. Qed.

Lemma rebooted_resumed (plugin : PluginState) :
  rebooted (setResultStatus ResultStatusSuccess plugin) = false.
Proof. unfold rebooted. cbn. by rewrite andb_false_r. Qed.

Lemma resumed_idemp (plugin : PluginState) : resumed (resumed plugin) = resumed plugin.
Proof.
  unfold resumed. destruct (rebooted plugin) eqn:Hr.
  - by rewrite rebooted_resumed.
  - by rewrite Hr.
Qed.

(** The loop over the plugins sends replies only, rewrites the plugins
    it visits, and replies for every rebooted plugin it visits. *)
Lemma rebootLoop_spec (messageID : string) (order : list string) :
  ∀ (plugins : gmap string PluginState) (pluginOutputs : gmap string PluginResult) (w : World),
  ∃ (plugins' : gmap string PluginState) (replies : list Event),
    rebootLoop messageID order plugins pluginOutputs w =
      (plugins', mkWorld (store w) (trace w ++ replies)) ∧
    (∀ v, plugins' !! v =
          if bool_decide (v ∈ order) then resumed <$> plugins !! v else plugins !! v) ∧
    Forall (λ e, ∃ v outputs, e = SendResponseCall messageID v outputs ∧ v ∈ dom plugins)
           replies ∧
    (∀ v plugin,
       v ∈ order → plugins !! v = Some plugin → rebooted plugin = true →
       ∃ outputs,
         SendResponseCall messageID v outputs ∈ replies ∧
         outputs !! v = Some (Result (setResultStatus ResultStatusSuccess plugin))).
Proof.
  induction order as [|v rest IH]; intros plugins pluginOutputs w.
  - exists plugins, []. cbn. rewrite app_nil_r. split; [by destruct w|].
    split; [done|]. split; [constructor|]. by intros v plugin ?%not_elem_of_nil.
  - cbn [rebootLoop].
    assert (Hkeep : ∀ v', v ≠ v' →
              bool_decide (v' ∈ v :: rest) = bool_decide (v' ∈ rest)).
    { intros v' Hne. apply bool_decide_ext.
      split; [by intros [->|?]%elem_of_cons|by apply list_elem_of_further]. }
    destruct (plugins !! v) as [plugin|] eqn:Hv.
    + destruct (rebooted plugin) eqn:Hreb.
      * unfold bind at 1, emit at 1.
        destruct (IH (<[v := setResultStatus ResultStatusSuccess plugin]> plugins)
                     (<[v := Result (setResultStatus ResultStatusSuccess plugin)]> pluginOutputs)
                     (mkWorld (store w)
                        (trace w ++
                           [SendResponseCall messageID v
                              (<[v := Result (setResultStatus ResultStatusSuccess plugin)]>
                                 pluginOutputs)])))
          as (plugins' & replies & Hrun & Hlook & Hreplies & Hsent).
        exists plugins', (SendResponseCall messageID v
                            (<[v := Result (setResultStatus ResultStatusSuccess plugin)]>
                               pluginOutputs) :: replies).
        split; [rewrite Hrun; cbn; by rewrite <- app_assoc|]. split; [|split].
        -- intros v'. rewrite Hlook. destruct (decide (v = v')) as [<-|Hne].
           ++ rewrite lookup_insert_eq, Hv. cbn.
              rewrite (bool_decide_eq_true_2 (v ∈ v :: rest)) by apply list_elem_of_here.
              unfold resumed at 2. rewrite Hreb.
              unfold resumed. rewrite rebooted_resumed. by destruct (bool_decide (v ∈ rest)).
           ++ rewrite lookup_insert_ne by done. by rewrite Hkeep.
        -- constructor.
           ++ eexists _, _. split; [done|]. apply elem_of_dom. eauto.
           ++ eapply Forall_impl; [exact Hreplies|].
              intros e (v' & outputs & -> & Hdom). eexists _, _. split; [done|].
              rewrite dom_insert_L in Hdom. apply elem_of_union in Hdom as [->%elem_of_singleton|?];
                [apply elem_of_dom; eauto|done].
        -- intros v' plugin' Hin Hv' Hreb'.
           destruct (decide (v = v')) as [<-|Hne].
           ++ assert (plugin' = plugin) as -> by congruence.
              eexists. split; [apply list_elem_of_here|]. apply lookup_insert_eq.
           ++ apply elem_of_cons in Hin as [->|Hin]; [done|].
              destruct (Hsent v' plugin' Hin) as (outputs & Hout & Hres); [|done|].
              { by rewrite lookup_insert_ne. }
              exists outputs. split; [by apply list_elem_of_further|done].
      * destruct (IH plugins pluginOutputs w)
          as (plugins' & replies & Hrun & Hlook & Hreplies & Hsent).
        exists plugins', replies. split; [done|]. split; [|split; [done|]].
        -- intros v'. rewrite Hlook. destruct (decide (v = v')) as [<-|Hne].
           ++ rewrite Hv. cbn.
              rewrite (bool_decide_eq_true_2 (v ∈ v :: rest)) by apply list_elem_of_here.
              unfold resumed. rewrite Hreb. by destruct (bool_decide (v ∈ rest)).
           ++ by rewrite Hkeep.
        -- intros v' plugin' Hin Hv' Hreb'.
           apply elem_of_cons in Hin as [->|Hin]; [congruence|]. by apply Hsent.
    + destruct (IH plugins pluginOutputs w)
        as (plugins' & replies & Hrun & Hlook & Hreplies & Hsent).
      exists plugins', replies. split; [done|]. split; [|split; [done|]].
      * intros v'. rewrite Hlook. destruct (decide (v = v')) as [<-|Hne].
        -- rewrite Hv. cbn. by destruct (bool_decide (v ∈ rest)), (bool_decide (v ∈ v :: rest)).
        -- by rewrite Hkeep.
      * intros v' plugin' Hin Hv' Hreb'.
        apply elem_of_cons in Hin as [->|Hin]; [congruence|]. by apply Hsent.
Qed.

(** C7.  In the current pass, a document that is neither an
    association document nor poisoned has its run counted and, for
    every plugin with [HasExecuted = true] and status
    [SuccessAndReboot], the status rewritten to [Success] and a
    plugin-level [sendResponse] emitted; the updated document is then
    persisted to [current], and only then submitted to the
    send-command pool. *)
Theorem reboot_resumed_before_resubmit (env : Env) (instanceID f : string) (rest : list string)
    (w : World) (docState : DocumentState) :
  rangeOrderOk env →
  readDoc (instanceID, DefaultLocationOfCurrent, f) w = Some docState →
  IsAssociation env docState = false →
  RunCount (DocumentInformation docState) < CommandRetryLimit env →
  resumedBeforeResubmit env instanceID f rest w docState.
Proof.
  intros Hok Hread Hassoc Hcount. unfold resumedBeforeResubmit. cbn zeta.
  cbn [currentLoop]. unfold bind at 1, UnmarshalFile, ask. rewrite Hread, Hassoc.
  rewrite bool_decide_eq_false_2 by lia.
  unfold bind at 1, resumeDocument, bind at 1. cbn [DocumentInformation setDocumentInformation
    PluginsInformation MessageID CommandID setRunCount].
  destruct (rebootLoop_spec (MessageID (DocumentInformation docState))
              (rangeOrder env RangeRebootStatus (dom (PluginsInformation docState)))
              (PluginsInformation docState) ∅ w)
    as (plugins' & replies & Hrun & Hlook & Hreplies & Hsent).
  rewrite Hrun. unfold bind, PersistData, Submit. cbn [store trace].
  assert (Hplugins : plugins' = resumed <$> PluginsInformation docState).
  { apply map_eq. intros v. rewrite Hlook, lookup_fmap.
    destruct (PluginsInformation docState !! v) as [plugin|] eqn:Hv.
    - rewrite bool_decide_eq_true_2; [done|]. apply Hok, elem_of_dom. eauto.
    - by destruct (bool_decide _). }
  set (docState' := setPluginsInformation plugins'
                      (setDocumentInformation
                         (setRunCount (wrapInt (RunCount (DocumentInformation docState) + 1))
                                      (DocumentInformation docState)) docState)).
  match goal with |- context [SubmitErr ?e ?p ?i ?w1] => set (err := SubmitErr e p i w1) end.
  exists replies, docState', err. split; [|split; [|split; [|split]]].
  4: exact Hreplies.
  3: { rewrite <- !app_assoc. cbn [app]. by destruct err. }
  - reflexivity.
  - exact Hplugins.
  - intros v plugin Hv Hexec Hstatus. cbn [PluginsInformation setPluginsInformation].
    assert (Hreb : rebooted plugin = true) by by apply rebooted_true.
    split.
    + subst docState'. cbn [PluginsInformation setPluginsInformation].
      rewrite Hplugins, lookup_fmap, Hv. cbn. unfold resumed. by rewrite Hreb.
    + destruct (Hsent v plugin) as (outputs & Hin & Hout); [|done|done|].
      { apply Hok, elem_of_dom. eauto. }
      by exists outputs.
Qed.

Lemma reboot_resumed_before_resubmit_witness :
  rangeOrderOk okEnv ∧
  readDoc ("i-1", DefaultLocationOfCurrent, "m2") resumableWorld = Some resumableDoc ∧
  IsAssociation okEnv resumableDoc = false ∧
  RunCount (DocumentInformation resumableDoc) < CommandRetryLimit okEnv ∧
  resumedBeforeResubmit okEnv "i-1" "m2" [] resumableWorld resumableDoc.
Proof.
  split; [exact okEnv_rangeOrderOk|]. split; [reflexivity|]. split; [reflexivity|].
  split; [reflexivity|].
  apply (reboot_resumed_before_resubmit okEnv "i-1" "m2" [] resumableWorld resumableDoc
           okEnv_rangeOrderOk); reflexivity.
Defined.

(** [RunCount++] does not wrap around for a document that passed the
    retry guard, whatever the limit. *)
Lemma wrapInt_below_limit (n limit : Z) :
  - 2 ^ 63 <= n → n < limit → limit < 2 ^ 63 → wrapInt (n + 1) = n + 1.
Proof.
  intros Hlo Hlt Hhi. unfold wrapInt.
  rewrite Z.mod_small by lia. lia.
Qed.

(** ** Scenarios

    The embedding run on the sample worlds. *)

(** Ingress of a send command: persist to [pending], acknowledge, send
    the in-progress reply, move to [current], submit. *)
Example ingress_send_command :
  returnedTrace (processMessage okEnv sendMessage emptyWorld) =
    Some ["PersistData pending/m3"; "AcknowledgeMessage aws.ssm.m3.i-1";
          "sendDocLevelResponse aws.ssm.m3.i-1"; "MoveCommandState pending/m3 current";
          "sendCommandPool.Submit aws.ssm.m3.i-1"].
Proof. vm_compute. reflexivity. Qed.

Example ingress_cancel_command :
  returnedTrace (processMessage okEnv cancelMessage emptyWorld) =
    Some ["PersistData pending/c1"; "AcknowledgeMessage aws.ssm.c1.i-1";
          "sendDocLevelResponse aws.ssm.c1.i-1"; "MoveCommandState pending/c1 current";
          "cancelCommandPool.Submit aws.ssm.c1.i-1"].
Proof. vm_compute. reflexivity. Qed.

(** A message with an unknown topic, and one whose payload does not
    parse, are failed on MDS. *)
Example ingress_unknown_topic :
  returnedTrace (processMessage okEnv
                   (mkMessage (Some "x1") (Some "aws.ssm.other") (Some "{send}") (Some "i-1"))
                   emptyWorld) =
    Some ["log.Error"; "FailMessage x1"].
Proof. vm_compute. reflexivity. Qed.

Example ingress_unparseable_payload :
  returnedTrace (processMessage okEnv
                   (mkMessage (Some "x2") (Some "aws.ssm.sendCommand.r") (Some "?") (Some "i-1"))
                   emptyWorld) =
    Some ["log.Error"; "FailMessage x2"].
Proof. vm_compute. reflexivity. Qed.

Example ingress_missing_payload :
  returnedTrace (processMessage okEnv
                   (mkMessage (Some "x3") (Some "aws.ssm.sendCommand.r") None (Some "i-1"))
                   emptyWorld) =
    Some ["log.Error"].
Proof. vm_compute. reflexivity. Qed.

(** The send-command executor on a fresh document, and on one whose
    plugin asks for a reboot. *)
Example execute_send_command :
  callName <$> trace (exec (processSendCommandMessage okEnv freshDoc) freshWorld) =
    ["runPlugins aws.ssm.m3.i-1"; "PersistDocumentInfo current/m3";
     "sendResponse aws.ssm.m3.i-1 []"; "MoveCommandState current/m3 completed";
     "DeleteMessage aws.ssm.m3.i-1"].
Proof. vm_compute. reflexivity. Qed.

Example execute_send_command_reboot :
  callName <$> trace (exec (processSendCommandMessage rebootEnv freshDoc) freshWorld) =
    ["runPlugins aws.ssm.m3.i-1"; "PersistDocumentInfo current/m3"].
Proof. vm_compute. reflexivity. Qed.

(** Cancelling a job that is not in the pool. *)
Example cancel_after_completion :
  let result := processCancelCommandMessage okEnv cancelDoc emptyWorld in
  DocumentStatus (DocumentInformation result.1) = ResultStatusFailed ∧
  DebugInfo (CancelInformation result.1) = "Command m1 couldn't be cancelled" ∧
  callName <$> trace result.2 =
    ["sendCommandPool.Cancel aws.ssm.m1.i-1"; "PersistData current/c1";
     "MoveCommandState current/c1 completed"; "DeleteMessage aws.ssm.c1.i-1"].
Proof. vm_compute. repeat split. Qed.

(** Recovery: a resumable document alone in [current]; a poisoned
    document ahead of it; an association document ahead of the
    others in both folders. *)
Example recover_resumable :
  callName <$> trace (exec (processOlderMessages okEnv) resumableWorld) =
    ["sendResponse aws.ssm.m2.i-1 [A]"; "PersistData current/m2";
     "sendCommandPool.Submit aws.ssm.m2.i-1"].
Proof. vm_compute. reflexivity. Qed.

Example recover_behind_poisoned :
  trace (exec (processOlderMessages okEnv) poisonedWorld) = [].
Proof. vm_compute. reflexivity. Qed.

Example recover_behind_association :
  trace (exec (processOlderMessages okEnv) associationWorld) = [].
Proof. vm_compute. reflexivity. Qed.

(** Recovery: the pending pass stops at the unreadable file; the
    current pass then finds [current] empty. *)
Example recover_behind_unreadable :
  callName <$> trace (exec (processOlderMessages okEnv) unreadableWorld) = ["log.Error"].
Proof. vm_compute. reflexivity. Qed.

(** * Further properties of the processor *)

(** ** The state store under a move *)

Lemma moveFile_frame (src dst p : Path) (s : gmap (string * string * string) File) :
  p ≠ src → p ≠ dst → moveFile src dst s !! p = s !! p.
Proof.
  intros Hsrc Hdst. unfold moveFile. destruct (s !! src); [|done].
  rewrite lookup_insert_ne by done. by rewrite lookup_delete_ne.
Qed.


(** ** [submitDocForExecution], call by call *)

Lemma submitDocForExecution_run (env : Env) (docState : DocumentState) (w : World) :
  let info := DocumentInformation docState in
  ∃ calls,
    submitDocForExecution env docState w =
      (tt, mkWorld (moveFile (Destination info, DefaultLocationOfPending, CommandID info)
                             (Destination info, DefaultLocationOfCurrent, CommandID info)
                             (store w))
                   (trace w ++ calls)) ∧
    forallb isPendingPassCall calls = true ∧
    (countEvents isSubmit calls ≤ 1)%nat.
Proof.
  cbn zeta. unfold submitDocForExecution, bind, MoveCommandState, Submit, emit, ret.
  destruct (DocType docState) eqn:Htype; cbn.
  1,2: match goal with |- context [SubmitErr ?e ?p ?i ?w1] =>
         destruct (SubmitErr e p i w1) end; cbn.
  all: eexists; split; [by rewrite <- !app_assoc|].
  all: cbn; rewrite ?Htype; cbn; split; [done|]; unfold countEvents; cbn; lia.
Qed.

(** ** The pending pass *)


Lemma pendingLoop_frame (env : Env) (instanceID : string) (files : list string) (w : World)
    (p : Path) :
  folderOf p ≠ DefaultLocationOfPending → folderOf p ≠ DefaultLocationOfCurrent →
  store (exec (pendingLoop env instanceID files) w) !! p = store w !! p.
Proof.
  intros Hpending Hcurrent. revert w. induction files as [|f rest IH]; intros w; [done|].
  cbn [pendingLoop]. unfold exec, bind at 1, UnmarshalFile, ask.
  destruct (readDoc _ w) as [docState|]; [|done].
  destruct (IsAssociation env docState); [done|]. unfold bind.
  destruct (submitDocForExecution_run env docState w) as (calls & -> & _).
  unfold exec in IH. rewrite IH. cbn [store].
  apply moveFile_frame; intros ->; [by apply Hpending|by apply Hcurrent].
Qed.

(** ** The current pass *)

(** One resumed document, call by call. *)
Lemma resumeDocument_run (env : Env) (instanceID : string) (docState : DocumentState)
    (w : World) :
  let info := setRunCount (wrapInt (RunCount (DocumentInformation docState) + 1))
                (DocumentInformation docState) in
  ∃ plugins' replies err,
    let docState' := setPluginsInformation plugins' (setDocumentInformation info docState) in
    rebootLoop (MessageID info)
      (rangeOrder env RangeRebootStatus (dom (PluginsInformation docState)))
      (PluginsInformation docState) ∅ w
      = (plugins', mkWorld (store w) (trace w ++ replies)) ∧
    resumeDocument env instanceID docState w =
      (err, mkWorld (<[(instanceID, DefaultLocationOfCurrent, CommandID info) :=
                        FileDoc docState']> (store w))
                    (trace w ++ replies ++
                       [PersistDataCall (CommandID info) instanceID
                          DefaultLocationOfCurrent docState';
                        SubmitCall sendCommandPool (MessageID info)
                          (JobRunCmdsUsingCmdState docState')])) ∧
    forallb isReply replies = true ∧
    ∃ w1, err = SubmitErr env sendCommandPool (MessageID info) w1.
Proof.
  cbn zeta. unfold resumeDocument, bind at 1.
  cbn [DocumentInformation setDocumentInformation PluginsInformation MessageID CommandID
         setRunCount].
  destruct (rebootLoop_spec (MessageID (DocumentInformation docState))
              (rangeOrder env RangeRebootStatus (dom (PluginsInformation docState)))
              (PluginsInformation docState) ∅ w)
    as (plugins' & replies & Hrun & _ & Hreplies & _).
  rewrite Hrun. unfold bind, PersistData, Submit. cbn [store trace].
  eexists plugins', replies, _. split; [done|]. split; [|split].
  - rewrite <- !app_assoc. cbn [app]. reflexivity.
  - apply forallb_forall. intros e He. apply list_elem_of_In in He.
    rewrite Forall_forall in Hreplies. by destruct (Hreplies e He) as (v & o & -> & _).
  - by eexists.
Qed.



Lemma currentLoop_cons (env : Env) (instanceID f : string) (rest : list string) (w : World) :
  currentLoop env instanceID (f :: rest) w =
    match readDoc (instanceID, DefaultLocationOfCurrent, f) w with
    | None => emit (LogError "skipping processsing of previously unexecuted messages.") w
    | Some docState =>
        if IsAssociation env docState then (tt, w)
        else if bool_decide (RunCount (DocumentInformation docState) >= CommandRetryLimit env)
        then (tt, w)
        else
          let r := resumeDocument env instanceID docState w in
          if r.1
          then emit (LogError "SendCommand failed for previously unexecuted commands") r.2
          else currentLoop env instanceID rest r.2
    end.
Proof.
  cbn [currentLoop]. unfold bind at 1, UnmarshalFile, ask.
  destruct (readDoc _ w) as [docState|]; [|done].
  destruct (IsAssociation env docState); [done|].
  destruct (bool_decide _); [done|]. unfold bind.
  by destruct (resumeDocument env instanceID docState w) as [[] w1].
Qed.

Lemma pendingLoop_cons (env : Env) (instanceID f : string) (rest : list string) (w : World) :
  pendingLoop env instanceID (f :: rest) w =
    match readDoc (instanceID, DefaultLocationOfPending, f) w with
    | None => emit (LogError "skipping processsing of pending messages.") w
    | Some docState =>
        if IsAssociation env docState then (tt, w)
        else pendingLoop env instanceID rest (exec (submitDocForExecution env docState) w)
    end.
Proof.
  cbn [pendingLoop]. unfold bind at 1, UnmarshalFile, ask.
  destruct (readDoc _ w) as [docState|]; [|done].
  destruct (IsAssociation env docState); [done|]. unfold bind, exec.
  by destruct (submitDocForExecution env docState w) as [[] w1].
Qed.

Lemma currentLoop_store (env : Env) (instanceID : string) (files : list string) (w : World)
    (p : Path) :
  (is_Some (store w !! p) → is_Some (store (exec (currentLoop env instanceID files) w) !! p)) ∧
  (p.1.1 ≠ instanceID ∨ folderOf p ≠ DefaultLocationOfCurrent →
   store (exec (currentLoop env instanceID files) w) !! p = store w !! p).
Proof.
  revert w. induction files as [|f rest IH]; intros w; [done|].
  unfold exec. rewrite currentLoop_cons.
  destruct (readDoc _ w) as [docState|]; [|done].
  destruct (IsAssociation env docState); [done|].
  case_bool_decide; [done|]. cbn zeta.
  destruct (resumeDocument_run env instanceID docState w)
    as (plugins' & replies & err & _ & -> & _ & _). cbn [fst snd].
  assert (Hstep : ∀ d,
            (is_Some (store w !! p) →
             is_Some (<[(instanceID, DefaultLocationOfCurrent,
                         CommandID (setRunCount
                                      (wrapInt (RunCount (DocumentInformation docState) + 1))
                                      (DocumentInformation docState))) := d]> (store w) !! p)) ∧
            (p.1.1 ≠ instanceID ∨ folderOf p ≠ DefaultLocationOfCurrent →
             <[(instanceID, DefaultLocationOfCurrent,
                CommandID (setRunCount
                             (wrapInt (RunCount (DocumentInformation docState) + 1))
                             (DocumentInformation docState))) := d]> (store w) !! p
             = store w !! p)).
  { intros d. split.
    - intros Hsome. rewrite lookup_insert. case_decide; [by eexists|done].
    - intros Hout. apply lookup_insert_ne. intros <-. by destruct Hout as [Hout|Hout]. }
  destruct err.
  - cbn [emit snd store]. apply Hstep.
  - match goal with |- context [currentLoop env instanceID rest ?w1] =>
      destruct (IH w1) as [Hkeep Hframe] end.
    unfold exec in Hkeep, Hframe. cbn [store] in Hkeep, Hframe.
    destruct (Hstep (FileDoc (setPluginsInformation plugins'
                (setDocumentInformation
                   (setRunCount (wrapInt (RunCount (DocumentInformation docState) + 1))
                      (DocumentInformation docState)) docState)))) as [Hkeep0 Hframe0].
    split.
    + intros Hsome. by apply Hkeep, Hkeep0.
    + intros Hout. rewrite Hframe by done. by apply Hframe0.
Qed.

Lemma processMessagesFromCurrent_store (env : Env) (instanceID : string) (w : World) (p : Path) :
  (is_Some (store w !! p) →
   is_Some (store (exec (processMessagesFromCurrent env instanceID) w) !! p)) ∧
  (p.1.1 ≠ instanceID ∨ folderOf p ≠ DefaultLocationOfCurrent →
   store (exec (processMessagesFromCurrent env instanceID) w) !! p = store w !! p).
Proof.
  unfold processMessagesFromCurrent, exec, bind, IsDirEmpty, ReadDir, ask.
  destruct (bool_decide _); [done|].
  destruct (ReadDirErr env _ w); [done|].
  apply currentLoop_store.
Qed.

(** X3.  The current pass removes no file from the state store and
    writes only into the [current] folder of the instance: a document
    it skips or resubmits is still in [current] afterwards, and
    [pending] and [completed] are as they were. *)
Theorem current_pass_keeps_files (env : Env) (instanceID : string) (w : World) :
  let w' := exec (processMessagesFromCurrent env instanceID) w in
  (∀ p, is_Some (store w !! p) → is_Some (store w' !! p)) ∧
  (∀ p, p.1.1 ≠ instanceID ∨ folderOf p ≠ DefaultLocationOfCurrent →
        store w' !! p = store w !! p).
Proof.
  cbn zeta. split; intros p; apply processMessagesFromCurrent_store.
Qed.

Lemma current_pass_keeps_files_witness :
  let w' := exec (processMessagesFromCurrent okEnv "i-1") bothFoldersWorld in
  is_Some (store bothFoldersWorld !! ("i-1", "current", "m2")) ∧
  is_Some (store w' !! ("i-1", "current", "m2")) ∧
  (("i-1", "pending", "m3").1.1 ≠ "i-1" ∨
   folderOf ("i-1", "pending", "m3") ≠ DefaultLocationOfCurrent) ∧
  store w' !! ("i-1", "pending", "m3") = store bothFoldersWorld !! ("i-1", "pending", "m3").
Proof.
  cbn zeta.
  assert (Hin : is_Some (store bothFoldersWorld !! ("i-1", "current", "m2"))).
  { vm_compute. eauto. }
  assert (Hout : ("i-1", "pending", "m3").1.1 ≠ "i-1" ∨
                 folderOf ("i-1", "pending", "m3") ≠ DefaultLocationOfCurrent).
  { right. vm_compute. discriminate. }
  destruct (current_pass_keeps_files okEnv "i-1" bothFoldersWorld) as [Hkeeps Hsame].
  split; [exact Hin|]. split; [exact (Hkeeps _ Hin)|]. split; [exact Hout|].
  exact (Hsame _ Hout).
Defined.

(** X4.  Recovery as a whole leaves every file outside the [pending]
    and [current] folders as it was; in particular it neither adds to
    nor changes the [completed] folder. *)
Theorem recovery_leaves_completed_alone (env : Env) (w : World) (p : Path) :
  folderOf p ≠ DefaultLocationOfPending →
  folderOf p ≠ DefaultLocationOfCurrent →
  store (exec (processOlderMessages env) w) !! p = store w !! p.
Proof.
  intros Hpending Hcurrent. unfold processOlderMessages.
  destruct (InstanceID env) as [instanceID|]; [|done].
  unfold exec, bind at 1, IsDirEmpty, ask.
  destruct (bool_decide _).
  - apply processMessagesFromCurrent_store. by right.
  - unfold bind at 1, ReadDir, ask. destruct (ReadDirErr env _ w); [done|].
    unfold bind.
    pose proof (pendingLoop_frame env instanceID
                  (folderNames instanceID DefaultLocationOfPending w) w p Hpending Hcurrent)
      as Hpend.
    unfold exec in Hpend.
    destruct (pendingLoop env instanceID _ w) as [[] w1]. cbn [snd] in Hpend.
    rewrite <- Hpend. apply processMessagesFromCurrent_store. by right.
Qed.

Lemma recovery_leaves_completed_alone_witness :
  folderOf ("i-1", "completed", "m9") ≠ DefaultLocationOfPending ∧
  folderOf ("i-1", "completed", "m9") ≠ DefaultLocationOfCurrent ∧
  store (exec (processOlderMessages okEnv) resumableWorld) !! ("i-1", "completed", "m9") =
    store resumableWorld !! ("i-1", "completed", "m9").
Proof.
  split; [vm_compute; discriminate|]. split; [vm_compute; discriminate|].
  apply (recovery_leaves_completed_alone okEnv resumableWorld ("i-1", "completed", "m9"));
    vm_compute; discriminate.
Defined.

(** ** Listing a folder *)





(** ** Recovery that does not start, or has nothing to do *)

(** X5.  When the instance id cannot be fetched, or the pending folder
    has files but cannot be listed, recovery logs one error and
    returns: the state store is as it was and the current folder is
    not scanned either, whatever it holds. *)
Theorem recovery_gives_up_before_current (env : Env) (w : World) :
  InstanceID env = None ∨
  (∃ instanceID, InstanceID env = Some instanceID ∧
                 folderNames instanceID DefaultLocationOfPending w ≠ [] ∧
                 ReadDirErr env DefaultLocationOfPending w = true) →
  ∃ msg, processOlderMessages env w = (tt, mkWorld (store w) (trace w ++ [LogError msg])).
Proof.
  unfold processOlderMessages. intros [->|(instanceID & -> & Hfiles & Herr)].
  - by eexists.
  - unfold bind, IsDirEmpty, ReadDir, ask.
    rewrite bool_decide_eq_false_2 by done. rewrite Herr. by eexists.
Qed.

Lemma recovery_gives_up_before_current_witness :
  (InstanceID unlistableEnv = None ∨
   (∃ instanceID, InstanceID unlistableEnv = Some instanceID ∧
                  folderNames instanceID DefaultLocationOfPending bothFoldersWorld ≠ [] ∧
                  ReadDirErr unlistableEnv DefaultLocationOfPending bothFoldersWorld = true)) ∧
  readDoc ("i-1", "current", "m2") bothFoldersWorld = Some resumableDoc ∧
  ∃ msg, processOlderMessages unlistableEnv bothFoldersWorld =
           (tt, mkWorld (store bothFoldersWorld) (trace bothFoldersWorld ++ [LogError msg])).
Proof.
  assert (H : InstanceID unlistableEnv = None ∨
              (∃ instanceID, InstanceID unlistableEnv = Some instanceID ∧
                 folderNames instanceID DefaultLocationOfPending bothFoldersWorld ≠ [] ∧
                 ReadDirErr unlistableEnv DefaultLocationOfPending bothFoldersWorld = true)).
  { right. exists "i-1". split; [reflexivity|]. split; [vm_compute; discriminate|reflexivity]. }
  split; [exact H|]. split; [reflexivity|].
  exact (recovery_gives_up_before_current unlistableEnv bothFoldersWorld H).
Defined.



(** ** A pool that refuses the job *)

Lemma currentLoop_app_uniform (env : Env) (instanceID : string) (before : list string)
    (w : World) :
  (∀ rest, currentLoop env instanceID (before ++ rest) w = currentLoop env instanceID before w) ∨
  (∀ rest, currentLoop env instanceID (before ++ rest) w =
           currentLoop env instanceID rest (exec (currentLoop env instanceID before) w)).
Proof.
  revert w. induction before as [|f before IH]; intros w.
  - right. intros rest. reflexivity.
  - destruct (readDoc (instanceID, DefaultLocationOfCurrent, f) w) as [docState|] eqn:Hread.
    2: { left. intros rest. cbn [app]. rewrite !currentLoop_cons. by rewrite Hread. }
    destruct (IsAssociation env docState) eqn:Hassoc.
    { left. intros rest. cbn [app]. rewrite !currentLoop_cons. by rewrite Hread, Hassoc. }
    destruct (bool_decide (RunCount (DocumentInformation docState) >= CommandRetryLimit env))
      eqn:Hpoison.
    { left. intros rest. cbn [app]. rewrite !currentLoop_cons. by rewrite Hread, Hassoc, Hpoison. }
    destruct (resumeDocument env instanceID docState w) as [err w1] eqn:Hresume.
    destruct err.
    { left. intros rest. cbn [app]. rewrite !currentLoop_cons.
      by rewrite Hread, Hassoc, Hpoison, Hresume. }
    destruct (IH w1) as [Hstop|Hgo].
    + left. intros rest. cbn [app]. rewrite !currentLoop_cons.
      rewrite Hread, Hassoc, Hpoison, Hresume. cbn. apply Hstop.
    + right. intros rest. cbn [app]. unfold exec. rewrite !currentLoop_cons.
      rewrite Hread, Hassoc, Hpoison, Hresume. cbn. apply Hgo.
Qed.

(** X7.  When the send-command pool refuses the job of a document the
    current pass resumes, the pass stops after that document: scanning
    [before ++ f :: after] does what scanning [before ++ [f]] does.
    The document of [f] has by then been persisted with its run
    counted, and the files after it are not processed. *)
Theorem submit_failure_ends_current_pass (env : Env) (instanceID : string)
    (before : list string) (f : string) (after : list string) (w : World)
    (docState : DocumentState) :
  readDoc (instanceID, DefaultLocationOfCurrent, f)
          (exec (currentLoop env instanceID before) w) = Some docState →
  IsAssociation env docState = false →
  RunCount (DocumentInformation docState) < CommandRetryLimit env →
  (∀ w1, SubmitErr env sendCommandPool (MessageID (DocumentInformation docState)) w1 = true) →
  currentLoop env instanceID (before ++ f :: after) w =
    currentLoop env instanceID (before ++ [f]) w.
Proof.
  intros Hread Hassoc Hcount Hrefuse.
  destruct (currentLoop_app_uniform env instanceID before w) as [Hstop|Hgo].
  - by rewrite !Hstop.
  - rewrite !Hgo, !currentLoop_cons, Hread, Hassoc.
    rewrite bool_decide_eq_false_2 by lia. cbn zeta.
    destruct (resumeDocument_run env instanceID docState
                (exec (currentLoop env instanceID before) w))
      as (plugins' & replies & err & _ & -> & _ & w1 & ->).
    cbn [fst snd]. cbn [MessageID setRunCount]. by rewrite Hrefuse.
Qed.

Lemma submit_failure_ends_current_pass_witness :
  readDoc ("i-1", DefaultLocationOfCurrent, "m2")
          (exec (currentLoop closedPoolEnv "i-1" []) twoResumableWorld) = Some resumableDoc ∧
  IsAssociation closedPoolEnv resumableDoc = false ∧
  RunCount (DocumentInformation resumableDoc) < CommandRetryLimit closedPoolEnv ∧
  (∀ w1, SubmitErr closedPoolEnv sendCommandPool
           (MessageID (DocumentInformation resumableDoc)) w1 = true) ∧
  currentLoop closedPoolEnv "i-1" ([] ++ "m2" :: ["m3"]) twoResumableWorld =
    currentLoop closedPoolEnv "i-1" ([] ++ ["m2"]) twoResumableWorld.
Proof.
  split; [reflexivity|]. split; [reflexivity|]. split; [reflexivity|].
  split; [intros w1; reflexivity|].
  apply (submit_failure_ends_current_pass closedPoolEnv "i-1" [] "m2" ["m3"]
           twoResumableWorld resumableDoc);
    [reflexivity|reflexivity|reflexivity|intros w1; reflexivity].
Defined.

(** ** Counting runs *)

(** X8.  The retry guard keeps the run count within the limit: when
    the current pass resumes a document, the record it persists to
    [current] has [RunCount] one above the document's, which is at
    most [CommandRetryLimit]; the increment does not wrap around. *)
Theorem run_count_stays_within_limit (env : Env) (instanceID f : string) (w : World)
    (docState : DocumentState) :
  readDoc (instanceID, DefaultLocationOfCurrent, f) w = Some docState →
  IsAssociation env docState = false →
  RunCount (DocumentInformation docState) < CommandRetryLimit env →
  - 2 ^ 63 <= RunCount (DocumentInformation docState) →
  CommandRetryLimit env < 2 ^ 63 →
  ∃ docState',
    readDoc (instanceID, DefaultLocationOfCurrent, CommandID (DocumentInformation docState))
            (exec (currentLoop env instanceID [f]) w) = Some docState' ∧
    RunCount (DocumentInformation docState') = RunCount (DocumentInformation docState) + 1 ∧
    RunCount (DocumentInformation docState') <= CommandRetryLimit env.
Proof.
  intros Hread Hassoc Hcount Hlo Hhi. unfold exec.
  rewrite currentLoop_cons, Hread, Hassoc. rewrite bool_decide_eq_false_2 by lia. cbn zeta.
  destruct (resumeDocument_run env instanceID docState w)
    as (plugins' & replies & err & _ & -> & _). cbn [fst snd].
  eexists. split.
  - destruct err; cbn [emit currentLoop ret snd]; unfold readDoc; cbn [store];
      cbn [CommandID setRunCount]; by rewrite lookup_insert_eq.
  - cbn. rewrite (wrapInt_below_limit _ (CommandRetryLimit env)) by lia. lia.
Qed.

Lemma run_count_stays_within_limit_witness :
  readDoc ("i-1", DefaultLocationOfCurrent, "m2") resumableWorld = Some resumableDoc ∧
  IsAssociation okEnv resumableDoc = false ∧
  RunCount (DocumentInformation resumableDoc) < CommandRetryLimit okEnv ∧
  - 2 ^ 63 <= RunCount (DocumentInformation resumableDoc) ∧
  CommandRetryLimit okEnv < 2 ^ 63 ∧
  ∃ docState',
    readDoc ("i-1", DefaultLocationOfCurrent, CommandID (DocumentInformation resumableDoc))
            (exec (currentLoop okEnv "i-1" ["m2"]) resumableWorld) = Some docState' ∧
    RunCount (DocumentInformation docState') = RunCount (DocumentInformation resumableDoc) + 1 ∧
    RunCount (DocumentInformation docState') <= CommandRetryLimit okEnv.
Proof.
  split; [reflexivity|]. split; [reflexivity|]. split; [reflexivity|].
  split; [vm_compute; discriminate|]. split; [reflexivity|].
  apply (run_count_stays_within_limit okEnv "i-1" "m2" resumableWorld resumableDoc);
    [reflexivity|reflexivity|reflexivity|vm_compute; discriminate|reflexivity].
Defined.

(** ** The replies of the reboot-resume loop *)

Lemma rebootLoop_cons (messageID v : string) (rest : list string)
    (plugins : gmap string PluginState) (pluginOutputs : gmap string PluginResult) (w : World) :
  rebootLoop messageID (v :: rest) plugins pluginOutputs w =
    match plugins !! v with
    | Some plugin =>
        if rebooted plugin
        then
          let plugin' := setResultStatus ResultStatusSuccess plugin in
          let pluginOutputs' := <[v := Result plugin']> pluginOutputs in
          rebootLoop messageID rest (<[v := plugin']> plugins) pluginOutputs'
            (mkWorld (store w) (trace w ++ [SendResponseCall messageID v pluginOutputs']))
        else rebootLoop messageID rest plugins pluginOutputs w
    | None => rebootLoop messageID rest plugins pluginOutputs w
    end.
Proof.
  cbn [rebootLoop]. destruct (plugins !! v) as [plugin|]; [|done].
  by destruct (rebooted plugin).
Qed.

Lemma rebootLoop_added (messageID : string) (order : list string)
    (plugins : gmap string PluginState) (pluginOutputs : gmap string PluginResult) (w : World) :
  ∃ replies,
    trace (exec (rebootLoop messageID order plugins pluginOutputs) w) = trace w ++ replies ∧
    added (rebootLoop messageID order plugins pluginOutputs) w = replies.
Proof.
  destruct (rebootLoop_spec messageID order plugins pluginOutputs w)
    as (plugins' & replies & Hrun & _).
  exists replies. unfold added, exec. rewrite Hrun. cbn. split; [done|].
  by rewrite drop_app_length.
Qed.

Lemma added_step {A} (m : M A) (w : World) (e : Event) :
  added m (mkWorld (store w) (trace w ++ [e])) =
    drop (S (length (trace w))) (trace (exec m (mkWorld (store w) (trace w ++ [e])))).
Proof. unfold added. cbn [trace]. rewrite length_app. cbn. by rewrite Nat.add_1_r. Qed.

(** X9.  The reboot-resume loop sends exactly one plugin-level reply
    for every plugin it visits that had executed with status
    [SuccessAndReboot], and none for any other plugin, also when the
    same key is visited more than once. *)
Theorem one_reply_per_rebooted_plugin (messageID : string) (order : list string)
    (plugins : gmap string PluginState) (pluginOutputs : gmap string PluginResult)
    (w : World) (v : string) :
  countEvents (isReplyFor v) (added (rebootLoop messageID order plugins pluginOutputs) w) =
    if bool_decide (v ∈ order ∧ (rebooted <$> plugins !! v) = Some true)
    then 1%nat else 0%nat.
Proof.
  revert plugins pluginOutputs w.
  induction order as [|v0 rest IH]; intros plugins pluginOutputs w.
  - unfold added, exec. cbn. rewrite drop_all.
    rewrite bool_decide_eq_false_2; [done|]. by intros [?%not_elem_of_nil _].
  - assert (Hother : ∀ plugins1 : gmap string PluginState,
              v0 ≠ v → plugins1 !! v = plugins !! v →
              bool_decide (v ∈ rest ∧ (rebooted <$> plugins1 !! v) = Some true) =
              bool_decide (v ∈ v0 :: rest ∧ (rebooted <$> plugins !! v) = Some true)).
    { intros plugins1 Hne Hsame. apply bool_decide_ext. rewrite Hsame, elem_of_cons.
      split; [intros [? ?]; split; [by right|done]|intros [[->|?] ?]; done]. }
    unfold added, exec. rewrite rebootLoop_cons.
    destruct (plugins !! v0) as [plugin|] eqn:Hv0.
    + destruct (rebooted plugin) eqn:Hreb; cbn zeta.
      * destruct (rebootLoop_added messageID rest
                    (<[v0:=setResultStatus ResultStatusSuccess plugin]> plugins)
                    (<[v0:=Result (setResultStatus ResultStatusSuccess plugin)]> pluginOutputs)
                    (mkWorld (store w)
                       (trace w ++
                          [SendResponseCall messageID v0
                             (<[v0:=Result (setResultStatus ResultStatusSuccess plugin)]>
                                pluginOutputs)])))
          as (replies & Htrace & Hadded).
        unfold exec in Htrace. rewrite Htrace. cbn [trace].
        rewrite <- app_assoc, drop_app_length. cbn [app].
        rewrite countEvents_cons, <- Hadded, IH. cbn [isReplyFor].
        destruct (decide (v0 = v)) as [->|Hne].
        -- rewrite lookup_insert_eq. cbn. rewrite rebooted_resumed.
           rewrite (bool_decide_eq_true_2 (v = v)) by done.
           rewrite bool_decide_eq_false_2 by by intros [_ [=]].
           rewrite bool_decide_eq_true_2; [done|].
           split; [apply list_elem_of_here|]. by rewrite Hv0; cbn; rewrite Hreb.
        -- rewrite (bool_decide_eq_false_2 (v0 = v)) by done.
           by rewrite (Hother _ Hne (lookup_insert_ne _ _ _ _ Hne)).
      * fold (exec (rebootLoop messageID rest plugins pluginOutputs) w).
        fold (added (rebootLoop messageID rest plugins pluginOutputs) w). rewrite IH.
        destruct (decide (v0 = v)) as [->|Hne]; [|by rewrite (Hother plugins Hne eq_refl)].
        rewrite Hv0. cbn. rewrite Hreb.
        by rewrite !bool_decide_eq_false_2 by by intros [_ [=]].
    + fold (exec (rebootLoop messageID rest plugins pluginOutputs) w).
      fold (added (rebootLoop messageID rest plugins pluginOutputs) w). rewrite IH.
      destruct (decide (v0 = v)) as [->|Hne]; [|by rewrite (Hother plugins Hne eq_refl)].
      rewrite Hv0. cbn. by rewrite !bool_decide_eq_false_2 by by intros [_ [=]].
Qed.

(** X10.  Resuming is idempotent: on plugin states that have been
    resumed the loop sends no reply and changes nothing, so a second
    recovery of the same document does not report its rebooted
    plugins again. *)
Theorem resumed_plugins_are_not_resumed_again (messageID : string) (order : list string)
    (plugins : gmap string PluginState) (pluginOutputs : gmap string PluginResult)
    (w : World) :
  rebootLoop messageID order (resumed <$> plugins) pluginOutputs w = (resumed <$> plugins, w).
Proof.
  induction order as [|v rest IH]; [done|].
  rewrite rebootLoop_cons, lookup_fmap.
  destruct (plugins !! v) as [plugin|]; cbn; [|exact IH].
  assert (Hnot : rebooted (resumed plugin) = false).
  { unfold resumed. destruct (rebooted plugin) eqn:Hreb; [apply rebooted_resumed|done]. }
  by rewrite Hnot.
Qed.

Lemma rebootLoop_cumulative (messageID : string) (order : list string)
    (plugins : gmap string PluginState) (pluginOutputs : gmap string PluginResult)
    (w : World) :
  map_Forall (λ _ r, Status r = ResultStatusSuccess) pluginOutputs →
  cumulativeReplies (dom pluginOutputs)
    (added (rebootLoop messageID order plugins pluginOutputs) w).
Proof.
  revert plugins pluginOutputs w.
  induction order as [|v rest IH]; intros plugins pluginOutputs w Hsuccess.
  - unfold added, exec. cbn. by rewrite drop_all.
  - unfold added, exec. rewrite rebootLoop_cons.
    destruct (plugins !! v) as [plugin|]; [|by apply IH].
    destruct (rebooted plugin); [|by apply IH]. cbn zeta.
    assert (Hsuccess' : map_Forall (λ _ r, Status r = ResultStatusSuccess)
              (<[v:=Result (setResultStatus ResultStatusSuccess plugin)]> pluginOutputs)).
    { by apply map_Forall_insert_2. }
    destruct (rebootLoop_added messageID rest
                (<[v:=setResultStatus ResultStatusSuccess plugin]> plugins)
                (<[v:=Result (setResultStatus ResultStatusSuccess plugin)]> pluginOutputs)
                (mkWorld (store w)
                   (trace w ++
                      [SendResponseCall messageID v
                         (<[v:=Result (setResultStatus ResultStatusSuccess plugin)]>
                            pluginOutputs)])))
      as (replies & Htrace & Hadded).
    unfold exec in Htrace. rewrite Htrace. cbn [trace].
    rewrite <- app_assoc, drop_app_length. cbn [app cumulativeReplies].
    split; [rewrite dom_insert_L; apply union_comm_L|]. split; [exact Hsuccess'|].
    rewrite <- Hadded.
    specialize (IH (<[v:=setResultStatus ResultStatusSuccess plugin]> plugins)
                   (<[v:=Result (setResultStatus ResultStatusSuccess plugin)]> pluginOutputs)
                   (mkWorld (store w)
                   (trace w ++
                      [SendResponseCall messageID v
                         (<[v:=Result (setResultStatus ResultStatusSuccess plugin)]>
                            pluginOutputs)])) Hsuccess').
    rewrite dom_insert_L in IH. by rewrite (union_comm_L (dom pluginOutputs)).
Qed.

(** X11.  The replies of the reboot-resume loop accumulate: the loop
    fills one output map and passes it to every [sendResponse], so the
    reply for a plugin carries, besides its own result, the results of
    the plugins resumed before it in the same pass, all with status
    [Success]. *)
Theorem resume_replies_accumulate (messageID : string) (order : list string)
    (plugins : gmap string PluginState) (w : World) :
  cumulativeReplies ∅ (added (rebootLoop messageID order plugins ∅) w).
Proof.
  rewrite <- (dom_empty_L (D := gset string) (M := gmap string) (A := PluginResult)).
  apply rebootLoop_cumulative. apply map_Forall_empty.
Qed.

(** ** What the executors hand to the plugin runner and to the reply *)

Lemma outputsLoop_from (plugins : gmap string PluginState) (order : list string)
    (acc : Collected) :
  collectedOk acc →
  collectedOk (foldl (outputsStep plugins) acc order) ∧
  ∀ k, kept (foldl (outputsStep plugins) acc order) !! k =
       if bool_decide (k ∈ order)
       then match plugins !! k with Some v => Some v | None => kept acc !! k end
       else kept acc !! k.
Proof.
  revert acc. induction order as [|k0 rest IH]; intros acc Hok; cbn [foldl].
  - split; [done|]. intros k. by rewrite bool_decide_eq_false_2 by apply not_elem_of_nil.
  - assert (Hok1 : collectedOk (outputsStep plugins acc k0)).
    { unfold outputsStep. destruct (plugins !! k0); [intros [=]|done]. }
    destruct (IH _ Hok1) as [Hok' Hkept]. split; [exact Hok'|].
    intros k. rewrite Hkept. unfold outputsStep.
    destruct (decide (k0 = k)) as [<-|Hne].
    + rewrite (bool_decide_eq_true_2 (k0 ∈ k0 :: rest)) by apply list_elem_of_here.
      destruct (plugins !! k0) as [v|] eqn:Hv; cbn.
      * rewrite lookup_insert_eq. by destruct (bool_decide (k0 ∈ rest)).
      * by destruct (bool_decide (k0 ∈ rest)).
    + assert (Hsame : kept match plugins !! k0 with
                           | Some v => mkCollected (<[k0:=v]> (kept acc)) (Some v)
                           | None => acc
                           end !! k = kept acc !! k).
      { destruct (plugins !! k0); [|done]. cbn. by rewrite lookup_insert_ne. }
      rewrite Hsame. apply (f_equal (λ b : bool, if b then _ else _)), bool_decide_ext.
      split; [by apply list_elem_of_further|by intros [->|?]%elem_of_cons].
Qed.

Lemma outputsLoop_spec (plugins : gmap string PluginState) (order : list string) :
  (∀ k, k ∈ order ↔ k ∈ dom plugins) →
  collectedOk (outputsLoop plugins order) ∧
  kept (outputsLoop plugins order) = plugins ∧
  rangeVar (outputsLoop plugins order) = last order ≫= (plugins !!.).
Proof.
  intros Hcover. unfold outputsLoop.
  destruct (outputsLoop_from plugins order (mkCollected ∅ None)) as [Hok Hkept]; [done|].
  split; [exact Hok|]. split.
  - apply map_eq. intros k. rewrite Hkept. cbn. rewrite lookup_empty.
    destruct (plugins !! k) as [v|] eqn:Hv.
    + rewrite bool_decide_eq_true_2; [done|]. apply Hcover, elem_of_dom. eauto.
    + by destruct (bool_decide _).
  - destruct (last order) as [kl|] eqn:Hlast; cbn.
    + apply last_Some in Hlast as [order' ->]. rewrite foldl_app. cbn.
      assert (is_Some (plugins !! kl)) as [v Hv].
      { apply elem_of_dom, Hcover, elem_of_app. right. apply list_elem_of_here. }
      unfold outputsStep. by rewrite Hv.
    + apply last_None in Hlast as ->. done.
Qed.

Lemma pendingPluginsLoop_rangeVar (plugins : gmap string PluginState) (order : list string) :
  (∀ k, k ∈ order ↔ k ∈ dom plugins) →
  rangeVar (pendingPluginsLoop plugins order).1 = last order ≫= (plugins !!.).
Proof.
  intros Hcover. unfold pendingPluginsLoop.
  destruct (last order) as [kl|] eqn:Hlast; cbn.
  - apply last_Some in Hlast as [order' ->]. rewrite foldl_app. cbn.
    assert (is_Some (plugins !! kl)) as [v Hv].
    { apply elem_of_dom, Hcover, elem_of_app. right. apply list_elem_of_here. }
    unfold pendingPluginsStep. rewrite Hv. by destruct (HasExecuted v).
  - apply last_None in Hlast as ->. done.
Qed.

(** X12.  With one range variable per loop (Go before 1.22), the two
    pointer maps [runCmdsUsingCmdState] builds inside [range] loops
    alias that variable: every configuration handed to the plugin
    runner is the configuration of the plugin the loop visited last,
    and every output in the document-level reply is the result of the
    plugin that loop visited last. *)
Theorem shared_range_variable_aliases_maps (env : Env) (command newCmdState : DocumentState) :
  rangeOrderOk env →
  loopVarPerIteration env = false →
  (∀ k c, (pendingConfigurations env command).1 !! k = Some c →
          ∃ kl pl,
            last (rangeOrder env RangePendingPlugins (dom (PluginsInformation command)))
              = Some kl ∧
            PluginsInformation command !! kl = Some pl ∧
            c = PluginConfiguration pl) ∧
  (∀ k r, cmdStateOutputs env newCmdState !! k = Some r →
          ∃ kl pl,
            last (rangeOrder env RangeOutputs (dom (PluginsInformation newCmdState)))
              = Some kl ∧
            PluginsInformation newCmdState !! kl = Some pl ∧
            r = Result pl).
Proof.
  intros Hok Hshared. split.
  - intros k c. unfold pendingConfigurations. cbn [fst]. unfold deref. rewrite Hshared.
    rewrite pendingPluginsLoop_rangeVar by apply Hok.
    destruct (last _) as [kl|]; cbn; [|by rewrite lookup_empty].
    destruct (PluginsInformation command !! kl) as [pl|] eqn:Hpl; [|by rewrite lookup_empty].
    rewrite lookup_fmap. intros Hc. exists kl, pl.
    destruct (kept _ !! k); [|done]. injection Hc as <-. done.
  - intros k r. unfold cmdStateOutputs, deref. rewrite Hshared.
    destruct (outputsLoop_spec (PluginsInformation newCmdState)
                (rangeOrder env RangeOutputs (dom (PluginsInformation newCmdState))))
      as (_ & _ & ->); [apply Hok|].
    destruct (last _) as [kl|]; cbn; [|by rewrite lookup_empty].
    destruct (PluginsInformation newCmdState !! kl) as [pl|] eqn:Hpl; [|by rewrite lookup_empty].
    rewrite lookup_fmap. intros Hr. exists kl, pl.
    destruct (kept _ !! k); [|done]. injection Hr as <-. done.
Qed.

Lemma shared_range_variable_aliases_maps_witness :
  rangeOrderOk okEnv ∧ loopVarPerIteration okEnv = false ∧
  (pendingConfigurations okEnv mixedDoc).1 !! "C" = Some (mkConfiguration "{b}") ∧
  cmdStateOutputs okEnv mixedDoc !! "A" = Some (mkPluginResult ResultStatusSuccess "b done") ∧
  (∀ k r, cmdStateOutputs okEnv mixedDoc !! k = Some r →
          ∃ kl pl,
            last (rangeOrder okEnv RangeOutputs (dom (PluginsInformation mixedDoc))) = Some kl ∧
            PluginsInformation mixedDoc !! kl = Some pl ∧
            r = Result pl).
Proof.
  split; [exact okEnv_rangeOrderOk|]. split; [reflexivity|].
  split; [vm_compute; reflexivity|]. split; [vm_compute; reflexivity|].
  exact (proj2 (shared_range_variable_aliases_maps okEnv mixedDoc mixedDoc
                  okEnv_rangeOrderOk eq_refl)).
Defined.

(** X13.  With a range variable per iteration (Go 1.22 and later),
    [runCmdsUsingCmdState] hands the plugin runner the own
    configuration of every plugin that has not executed, and builds
    the document-level reply from the own result of every plugin of
    the state read back from disk. *)
Theorem fresh_range_variable_keeps_maps (env : Env) (command newCmdState : DocumentState) :
  rangeOrderOk env →
  loopVarPerIteration env = true →
  (pendingConfigurations env command).1 =
    PluginConfiguration <$> notExecuted (PluginsInformation command) ∧
  cmdStateOutputs env newCmdState = Result <$> PluginsInformation newCmdState.
Proof.
  intros Hok Hfresh. split.
  - unfold pendingConfigurations. cbn [fst]. unfold deref. rewrite Hfresh.
    destruct (pendingPluginsLoop_spec (PluginsInformation command)
                (rangeOrder env RangePendingPlugins (dom (PluginsInformation command))))
      as (_ & -> & _); [apply Hok|done].
  - unfold cmdStateOutputs, deref. rewrite Hfresh.
    destruct (outputsLoop_spec (PluginsInformation newCmdState)
                (rangeOrder env RangeOutputs (dom (PluginsInformation newCmdState))))
      as (_ & -> & _); [apply Hok|done].
Qed.

Lemma perIterationEnv_rangeOrderOk : rangeOrderOk perIterationEnv.
Proof.
  intros site ks. split; [apply NoDup_elements|]. intros k. apply elem_of_elements.
Qed.

Lemma fresh_range_variable_keeps_maps_witness :
  rangeOrderOk perIterationEnv ∧ loopVarPerIteration perIterationEnv = true ∧
  (pendingConfigurations perIterationEnv mixedDoc).1 =
    PluginConfiguration <$> notExecuted (PluginsInformation mixedDoc) ∧
  cmdStateOutputs perIterationEnv mixedDoc = Result <$> PluginsInformation mixedDoc.
Proof.
  split; [exact perIterationEnv_rangeOrderOk|]. split; [reflexivity|].
  exact (fresh_range_variable_keeps_maps perIterationEnv mixedDoc mixedDoc
           perIterationEnv_rangeOrderOk eq_refl).
Defined.

(** X14.  Whatever the order of the [range], the map
    [loadPluginConfigurations] returns holds plugins that have not
    executed only: its keys are among the keys of the plugins with
    [HasExecuted = false]. *)
Theorem load_configurations_only_unexecuted (env : Env) (plugins : gmap string PluginState) :
  dom (loadPluginConfigurations env plugins) ⊆ dom (notExecuted plugins).
Proof.
  intros k Hk. apply elem_of_notExecuted.
  by apply (loadPluginConfigurations_sound env).
Qed.

(** X15.  For a document none of whose plugins has executed, which is
    what the dispatcher submits, [loadPluginConfigurations] returns an
    entry for every plugin. *)
Theorem load_configurations_of_fresh_document (env : Env) (plugins : gmap string PluginState) :
  rangeOrderOk env →
  (∀ k p, plugins !! k = Some p → HasExecuted p = false) →
  dom (loadPluginConfigurations env plugins) = dom plugins.
Proof. apply loadPluginConfigurations_fresh. Qed.

Lemma load_configurations_of_fresh_document_witness :
  rangeOrderOk okEnv ∧
  (∀ k p, PluginsInformation freshDoc !! k = Some p → HasExecuted p = false) ∧
  dom (loadPluginConfigurations okEnv (PluginsInformation freshDoc)) =
    dom (PluginsInformation freshDoc).
Proof.
  assert (Hfresh : ∀ k p, PluginsInformation freshDoc !! k = Some p → HasExecuted p = false).
  { intros k p Hk. change (PluginsInformation freshDoc)
      with ({[ "B" := samplePlugin false (ResultStatusOther "") ]} : gmap string PluginState)
      in Hk.
    apply lookup_singleton_Some in Hk as [_ <-]. reflexivity. }
  split; [exact okEnv_rangeOrderOk|]. split; [exact Hfresh|].
  exact (load_configurations_of_fresh_document okEnv (PluginsInformation freshDoc)
           okEnv_rangeOrderOk Hfresh).
Defined.

(** X16.  [runCmdsUsingCmdState] calls the plugin runner only when a
    plugin is left to run.  When every plugin has executed it makes no
    call to the runner and goes on to finalize the document; otherwise
    it calls the runner once, with exactly the plugins whose
    [HasExecuted] is false. *)
Theorem runner_called_for_pending_plugins_only (env : Env) (command : DocumentState)
    (w : World) :
  rangeOrderOk env →
  let plugins := PluginsInformation command in
  if bool_decide (notExecuted plugins = ∅)
  then runPendingPlugins env command w = (tt, w) ∧
       countEvents isRunPlugins (added (runCmdsUsingCmdState env command) w) = 0%nat
  else ∃ configs,
         dom configs = dom (notExecuted plugins) ∧
         exec (runPendingPlugins env command) w =
           exec (callRunPlugins env (MessageID (DocumentInformation command)) configs) w.
Proof.
  intros Hok. cbn zeta.
  pose proof (pendingConfigurations_dom env command Hok) as Hdom.
  assert (Hflag : (pendingConfigurations env command).2 =
                  bool_decide (notExecuted (PluginsInformation command) ≠ ∅)).
  { unfold pendingConfigurations. cbn [snd].
    by destruct (pendingPluginsLoop_spec (PluginsInformation command)
                   (rangeOrder env RangePendingPlugins (dom (PluginsInformation command))))
      as (_ & _ & ->); [apply Hok|]. }
  destruct (decide (notExecuted (PluginsInformation command) = ∅)) as [Hnone|Hsome];
    [rewrite (bool_decide_eq_true_2 _ Hnone)|rewrite (bool_decide_eq_false_2 _ Hsome)].
  - assert (Hrun : runPendingPlugins env command w = (tt, w)).
    { unfold runPendingPlugins. cbn zeta. rewrite Hflag.
      rewrite bool_decide_eq_false_2; [done|]. by intros Hne. }
    split; [exact Hrun|].
    unfold added, exec, runCmdsUsingCmdState, bind at 1. rewrite Hrun.
    unfold bind, GetCommandInterimState, ask, PersistDocumentInfo.
    match goal with |- context [finishDocument env ?i ?c ?o ?r ?cm ?d ?dl ?w'] =>
      destruct (decide (DocumentStatus i = ResultStatusSuccessAndReboot)) as [Hs|Hs];
      [rewrite (finishDocument_reboot env i c o r cm d dl w' Hs)
      |destruct (finishDocument_complete env i c o r cm d dl w' Hs) as (err & Htrace & _)]
    end.
    + cbn [snd trace]. by rewrite drop_app_length.
    + unfold exec in Htrace. rewrite Htrace. cbn [trace].
      rewrite <- !app_assoc, drop_app_length.
      destruct (isUpdate env _), err; reflexivity.
  - exists (pendingConfigurations env command).1. split; [exact Hdom|].
    unfold runPendingPlugins, exec. cbn zeta. rewrite Hflag, bool_decide_eq_true_2 by done.
    unfold bind. by destruct (callRunPlugins env _ _ w).
Qed.

Lemma runner_called_for_pending_plugins_only_witness :
  rangeOrderOk okEnv ∧
  runPendingPlugins okEnv updatedDoc updatedWorld = (tt, updatedWorld) ∧
  countEvents isRunPlugins (added (runCmdsUsingCmdState okEnv updatedDoc) updatedWorld) = 0%nat.
Proof.
  split; [exact okEnv_rangeOrderOk|].
  exact (runner_called_for_pending_plugins_only okEnv updatedDoc updatedWorld
           okEnv_rangeOrderOk).
Defined.

(** ** The dispatcher on a well-formed message *)

(** X17.  When [AcknowledgeMessage] fails, the dispatcher hands the
    error to the stop-policy handler and returns: the document it has
    already persisted stays in [pending], no in-progress reply is
    sent, the record is not moved to [current] and nothing is
    submitted. *)
Theorem failed_acknowledge_leaves_document_in_pending (env : Env) (msg : Message)
    (messageId : string) (docState : DocumentState) (w : World) :
  MessageId msg = Some messageId →
  validate msg = true →
  routed env msg = Some docState →
  AcknowledgeMessageErr env messageId
    (exec (persistData docState DefaultLocationOfPending) w) = true →
  let info := DocumentInformation docState in
  processMessage env msg w =
    Returned (mkWorld
                (<[(Destination info, DefaultLocationOfPending, CommandID info) :=
                     FileDoc docState]> (store w))
                (trace w ++
                   [PersistDataCall (CommandID info) (Destination info)
                      DefaultLocationOfPending docState;
                    AcknowledgeMessageCall messageId;
                    HandleAwsErrorCall])).
Proof.
  intros Hid Hvalid Hrouted Herr. cbn zeta.
  rewrite (processMessage_with_id env msg messageId w Hid), Hvalid, Hrouted.
  unfold acceptMessage, exec, bind, ask, emit, ret in *.
  unfold persistData, PersistData in *. cbn [fst snd] in *. rewrite Herr.
  cbn. by rewrite <- !app_assoc.
Qed.

Lemma failed_acknowledge_leaves_document_in_pending_witness :
  MessageId sendMessage = Some "aws.ssm.m3.i-1" ∧
  validate sendMessage = true ∧
  routed unacknowledgedEnv sendMessage = Some sampleSend ∧
  AcknowledgeMessageErr unacknowledgedEnv "aws.ssm.m3.i-1"
    (exec (persistData sampleSend DefaultLocationOfPending) emptyWorld) = true ∧
  processMessage unacknowledgedEnv sendMessage emptyWorld =
    Returned (mkWorld
                (<[("i-1", DefaultLocationOfPending, "m3") := FileDoc sampleSend]>
                   (store emptyWorld))
                (trace emptyWorld ++
                   [PersistDataCall "m3" "i-1" DefaultLocationOfPending sampleSend;
                    AcknowledgeMessageCall "aws.ssm.m3.i-1";
                    HandleAwsErrorCall])).
Proof.
  split; [reflexivity|]. split; [reflexivity|]. split; [reflexivity|]. split; [reflexivity|].
  apply (failed_acknowledge_leaves_document_in_pending unacknowledgedEnv sendMessage
           "aws.ssm.m3.i-1" sampleSend emptyWorld); reflexivity.
Defined.

(** X18.  For a message that is accepted and acknowledged the
    dispatcher persists the document to [pending], acknowledges the
    message, sends the in-progress reply under the message id, moves
    the record to [current] and dispatches it by document type, in
    this order; afterwards the record is in [current] and no longer in
    [pending]. *)
Theorem accepted_message_reaches_current (env : Env) (msg : Message)
    (messageId : string) (docState : DocumentState) (w : World) :
  MessageId msg = Some messageId →
  validate msg = true →
  routed env msg = Some docState →
  AcknowledgeMessageErr env messageId
    (exec (persistData docState DefaultLocationOfPending) w) = false →
  let info := DocumentInformation docState in
  ∃ w' err,
    processMessage env msg w = Returned w' ∧
    trace w' = trace w ++
      [PersistDataCall (CommandID info) (Destination info) DefaultLocationOfPending docState;
       AcknowledgeMessageCall messageId;
       SendDocLevelResponseCall messageId ResultStatusInProgress "";
       MoveCommandStateCall (CommandID info) (Destination info)
         DefaultLocationOfPending DefaultLocationOfCurrent]
      ++ dispatchCalls docState err ∧
    store w' !! (Destination info, DefaultLocationOfCurrent, CommandID info) =
      Some (FileDoc docState) ∧
    store w' !! (Destination info, DefaultLocationOfPending, CommandID info) = None.
Proof.
  intros Hid Hvalid Hrouted Herr. cbn zeta.
  rewrite (processMessage_with_id env msg messageId w Hid), Hvalid, Hrouted.
  unfold exec, persistData, PersistData in Herr. cbn [fst snd] in Herr.
  unfold acceptMessage, exec, bind at 1, persistData, PersistData.
  unfold bind at 1, ask. cbn [fst snd]. rewrite Herr.
  unfold bind, emit, submitDocForExecution, bind, MoveCommandState, Submit, emit, ret,
    dispatchCalls, moveFile.
  cbn [store trace fst snd]. rewrite lookup_insert_eq.
  destruct (DocType docState).
  1,2: match goal with |- context [SubmitErr ?e ?p ?i ?w1] =>
         eexists _, (SubmitErr e p i w1); (split; [reflexivity|]);
         destruct (SubmitErr e p i w1) end.
  5: eexists _, false; split; [reflexivity|].
  all: cbn [snd store trace]; rewrite <- ?app_assoc; cbn [app].
  all: (split; [reflexivity|]); rewrite lookup_insert_eq;
       (split; [reflexivity|]); rewrite lookup_insert_ne by (intros [=]);
       apply lookup_delete_eq.
Qed.

Lemma accepted_message_reaches_current_witness :
  MessageId cancelMessage = Some "aws.ssm.c1.i-1" ∧
  validate cancelMessage = true ∧
  routed okEnv cancelMessage = Some sampleCancel ∧
  AcknowledgeMessageErr okEnv "aws.ssm.c1.i-1"
    (exec (persistData sampleCancel DefaultLocationOfPending) emptyWorld) = false ∧
  ∃ w' err,
    processMessage okEnv cancelMessage emptyWorld = Returned w' ∧
    trace w' = trace emptyWorld ++
      [PersistDataCall "c1" "i-1" DefaultLocationOfPending sampleCancel;
       AcknowledgeMessageCall "aws.ssm.c1.i-1";
       SendDocLevelResponseCall "aws.ssm.c1.i-1" ResultStatusInProgress "";
       MoveCommandStateCall "c1" "i-1" DefaultLocationOfPending DefaultLocationOfCurrent]
      ++ dispatchCalls sampleCancel err ∧
    store w' !! ("i-1", DefaultLocationOfCurrent, "c1") = Some (FileDoc sampleCancel) ∧
    store w' !! ("i-1", DefaultLocationOfPending, "c1") = None.
Proof.
  split; [reflexivity|]. split; [reflexivity|]. split; [reflexivity|]. split; [reflexivity|].
  apply (accepted_message_reaches_current okEnv cancelMessage "aws.ssm.c1.i-1"
           sampleCancel emptyWorld); reflexivity.
Defined.

(** X19.  The dispatcher panics only on a message without
    [MessageId]: with [validate] checking the structural fields, the
    later dereference of [msg.Topic] is never reached with a nil
    topic, and every message whose [MessageId] is set is ignored,
    rejected or accepted. *)
Theorem dispatcher_panics_only_without_message_id (env : Env) (msg : Message) (w : World) :
  (∃ w', processMessage env msg w = Panicked w') ↔ MessageId msg = None.
Proof.
  split.
  - intros [w' Hpanic]. destruct (MessageId msg) as [messageId|] eqn:Hid; [|done].
    by rewrite (processMessage_with_id env msg messageId w Hid) in Hpanic.
  - intros Hid. exists w. unfold processMessage. by rewrite Hid.
Qed.

(** ** A completed send command *)

Lemma processSendCommandMessage_completed_store (env : Env) (docState : DocumentState)
    (w : World) :
  let info := DocumentInformation docState in
  let here := (Destination info, DefaultLocationOfCurrent, CommandID info) in
  let there := (Destination info, DefaultLocationOfCompleted, CommandID info) in
  let ran := callRunPlugins env (MessageID info)
               (loadPluginConfigurations env (PluginsInformation docState)) w in
  let documentInfo := setReplyFields (buildReply env "" ran.1)
                        (DocumentInformation (recordAt here ran.2)) in
  DocumentStatus documentInfo ≠ ResultStatusSuccessAndReboot →
  store (exec (processSendCommandMessage env docState) w) =
    <[there := FileDoc (setDocumentInformation documentInfo (recordAt here ran.2))]>
      (delete here
         (<[here := FileDoc (setDocumentInformation documentInfo (recordAt here ran.2))]>
            (store ran.2))).
Proof.
  cbn zeta. unfold exec. intros Hstatus. unfold processSendCommandMessage, bind at 1.
  destruct (callRunPlugins env _ _ w) as [outputs w1] eqn:Hran. cbn [fst snd] in *.
  unfold bind, GetDocumentInfo, ask.
  fold (recordAt (Destination (DocumentInformation docState),
                  DefaultLocationOfCurrent, CommandID (DocumentInformation docState)) w1).
  unfold PersistDocumentInfo at 1.
  fold (recordAt (Destination (DocumentInformation docState),
                  DefaultLocationOfCurrent, CommandID (DocumentInformation docState)) w1).
  match goal with |- context [finishDocument env ?i ?c ?o ?r ?cm ?d ?dl ?w'] =>
    destruct (finishDocument_complete env i c o r cm d dl w') as (err & _ & Hstore);
      [exact Hstatus|]
  end.
  unfold exec in Hstore. rewrite Hstore. cbn [store]. unfold moveFile.
  by rewrite lookup_insert_eq.
Qed.

(** X20.  When [processSendCommandMessage] completes a document (the
    status of the reply is not [SuccessAndReboot]), the record leaves
    [current] for [completed]: [current] no longer has it, [completed]
    has it with the status of the reply and the plugin states it had
    when the runner returned, and no other file has changed. *)
Theorem completed_document_leaves_current (env : Env) (docState : DocumentState) (w : World) :
  let info := DocumentInformation docState in
  let here := (Destination info, DefaultLocationOfCurrent, CommandID info) in
  let there := (Destination info, DefaultLocationOfCompleted, CommandID info) in
  let ran := callRunPlugins env (MessageID info)
               (loadPluginConfigurations env (PluginsInformation docState)) w in
  let reply := buildReply env "" ran.1 in
  ReplyDocumentStatus reply ≠ ResultStatusSuccessAndReboot →
  let w2 := exec (processSendCommandMessage env docState) w in
  store w2 !! here = None ∧
  (∃ d, readDoc there w2 = Some d ∧
        DocumentStatus (DocumentInformation d) = ReplyDocumentStatus reply ∧
        PluginsInformation d = PluginsInformation (recordAt here ran.2)) ∧
  ∀ p, p ≠ here → p ≠ there → store w2 !! p = store ran.2 !! p.
Proof.
  cbn zeta. intros Hstatus.
  pose proof (processSendCommandMessage_completed_store env docState w Hstatus) as Hstore.
  cbn zeta in Hstore. unfold readDoc. rewrite Hstore. split; [|split].
  - rewrite lookup_insert_ne by (intros [=]). apply lookup_delete_eq.
  - rewrite lookup_insert_eq. eexists. split; [reflexivity|]. done.
  - intros p Hhere Hthere.
    rewrite lookup_insert_ne by done. rewrite lookup_delete_ne by done.
    by rewrite lookup_insert_ne.
Qed.

Lemma completed_document_leaves_current_witness :
  let ran := callRunPlugins okEnv "aws.ssm.m3.i-1"
               (loadPluginConfigurations okEnv (PluginsInformation freshDoc)) freshWorld in
  ReplyDocumentStatus (buildReply okEnv "" ran.1) ≠ ResultStatusSuccessAndReboot ∧
  let w2 := exec (processSendCommandMessage okEnv freshDoc) freshWorld in
  store w2 !! ("i-1", DefaultLocationOfCurrent, "m3") = None ∧
  (∃ d, readDoc ("i-1", DefaultLocationOfCompleted, "m3") w2 = Some d ∧
        DocumentStatus (DocumentInformation d) = ReplyDocumentStatus (buildReply okEnv "" ran.1) ∧
        PluginsInformation d =
          PluginsInformation (recordAt ("i-1", DefaultLocationOfCurrent, "m3") ran.2)) ∧
  ∀ p, p ≠ ("i-1", DefaultLocationOfCurrent, "m3") →
       p ≠ ("i-1", DefaultLocationOfCompleted, "m3") →
       store w2 !! p = store ran.2 !! p.
Proof.
  cbn zeta. split; [vm_compute; discriminate|].
  apply (completed_document_leaves_current okEnv freshDoc freshWorld).
  vm_compute. discriminate.
Defined.

(** ** The message parsers *)

(** X21.  [parseSendCommandMessage] panics on a nil pointer exactly
    when the message has no [MessageId], or no [Payload], or has no
    [Destination] and a payload that parses: a payload that does not
    parse is reported as an error before [Destination] is looked at. *)
Theorem send_parser_panics (penv : ParserEnv) (msg : Message) (root : string) :
  parseSendCommandMessage penv msg root = ParsePanic ↔
  MessageId msg = None ∨ Payload msg = None ∨
  (MsgDestination msg = None ∧
   ∃ payload, Payload msg = Some payload ∧ is_Some (ParseMessageWithParams penv payload)).
Proof.
  unfold parseSendCommandMessage.
  destruct (MessageId msg) as [messageId|]; [|by split; [left|]].
  destruct (Payload msg) as [payload|]; [|by split; [right; left|]].
  destruct (ParseMessageWithParams penv payload) as [parsedMessage|] eqn:Hparse.
  - destruct (MsgDestination msg) as [destination|].
    + split.
      * intros Hpanic. by repeat case_match.
      * intros [[=]|[[=]|[[=] _]]].
    + split; [|done]. intros _. right. right. split; [done|].
      exists payload. by rewrite Hparse.
  - split; [done|]. intros [[=]|[[=]|[_ (payload' & [= <-] & [? Hsome])]]]. congruence.
Qed.

(** X22.  On a message whose [MessageId], [Payload] and [Destination]
    are set, [parseSendCommandMessage] returns an error exactly when
    the payload does not parse, or the instance is a managed instance,
    the document is one of the incompatible documents and its rewrite
    fails.  An error from the managed-instance detection is logged
    and does not fail the parse. *)
Theorem send_parser_errors (penv : ParserEnv) (msg : Message) (root : string)
    (messageId payload destination : string) :
  MessageId msg = Some messageId →
  Payload msg = Some payload →
  MsgDestination msg = Some destination →
  (∃ logged, parseSendCommandMessage penv msg root = ParseErr logged) ↔
  ParseMessageWithParams penv payload = None ∨
  ∃ parsedMessage,
    ParseMessageWithParams penv payload = Some parsedMessage ∧
    (isManagedInstance penv).1 = true ∧
    isManagedInstanceIncompatibleAWSSSMDocument penv (DocumentName parsedMessage) = true ∧
    removeDependencyOnInstanceMetadataForManagedInstance penv parsedMessage = None.
Proof.
  intros Hid Hpayload Hdest. unfold parseSendCommandMessage.
  rewrite Hid, Hpayload.
  destruct (ParseMessageWithParams penv payload) as [parsedMessage|] eqn:Hparse.
  - rewrite Hdest.
    destruct ((isManagedInstance penv).1) eqn:HisMI; cbn [andb].
    + destruct (isManagedInstanceIncompatibleAWSSSMDocument penv (DocumentName parsedMessage))
        eqn:Hincompatible.
      * destruct (removeDependencyOnInstanceMetadataForManagedInstance penv parsedMessage)
          as [rewritten|] eqn:Hrewrite.
        -- split; [by intros [logged [=]]|].
           intros [[=]|(pm & [= <-] & _ & _ & Hnone)]. congruence.
        -- split; [|by eexists]. intros _. right. by exists parsedMessage.
      * split; [by intros [logged [=]]|].
        intros [[=]|(pm & [= <-] & _ & Hinc & _)]. congruence.
    + split; [by intros [logged [=]]|].
      intros [[=]|(pm & _ & [=] & _)].
  - split; [by left|]. intros _. by eexists.
Qed.

Lemma send_parser_errors_witness :
  let msg := mkMessage (Some "aws.ssm.m7.i-1") (Some "aws.ssm.sendCommand.r")
               (Some "{join}") (Some "i-1") in
  MessageId msg = Some "aws.ssm.m7.i-1" ∧ Payload msg = Some "{join}" ∧
  MsgDestination msg = Some "i-1" ∧
  ((∃ logged, parseSendCommandMessage sampleParserEnv msg "/orchestration" = ParseErr logged) ↔
   ParseMessageWithParams sampleParserEnv "{join}" = None ∨
   ∃ parsedMessage,
     ParseMessageWithParams sampleParserEnv "{join}" = Some parsedMessage ∧
     (isManagedInstance sampleParserEnv).1 = true ∧
     isManagedInstanceIncompatibleAWSSSMDocument sampleParserEnv
       (DocumentName parsedMessage) = true ∧
     removeDependencyOnInstanceMetadataForManagedInstance sampleParserEnv parsedMessage = None).
Proof.
  cbn zeta. split; [reflexivity|]. split; [reflexivity|]. split; [reflexivity|].
  apply (send_parser_errors sampleParserEnv
           (mkMessage (Some "aws.ssm.m7.i-1") (Some "aws.ssm.sendCommand.r")
              (Some "{join}") (Some "i-1"))
           "/orchestration" "aws.ssm.m7.i-1" "{join}" "i-1"); reflexivity.
Defined.


(** X24.  A message that passes [validate] makes neither parser
    panic: every field the parsers dereference is one [validate] has
    checked. *)
Theorem valid_message_never_panics_in_parsers (penv : ParserEnv) (msg : Message)
    (root : string) :
  validate msg = true →
  parseSendCommandMessage penv msg root ≠ ParsePanic ∧
  parseCancelCommandMessage penv msg root ≠ ParsePanic.
Proof.
  intros ([messageId Hid] & _ & [payload Hpayload] & [destination Hdest])%validate_true.
  unfold parseSendCommandMessage, parseCancelCommandMessage.
  rewrite Hid, Hpayload, Hdest. split; by repeat case_match.
Qed.

Lemma valid_message_never_panics_in_parsers_witness :
  validate sendMessage = true ∧
  parseSendCommandMessage sampleParserEnv sendMessage "/orchestration" ≠ ParsePanic ∧
  parseCancelCommandMessage sampleParserEnv sendMessage "/orchestration" ≠ ParsePanic.
Proof.
  split; [reflexivity|].
  apply (valid_message_never_panics_in_parsers sampleParserEnv sendMessage "/orchestration").
  reflexivity.
Defined.
